(** * WoWsShips: ship catalog cache, eligibility classifier, tier partitioner
      and image mirror ([main.py]), and the per-ship detail fetcher ([get.py]).

    The development is a shallow embedding of the two Python scripts.

    - JSON values as Python sees them after [json.load] are the inductive
      type [pyval]; a Python [dict] is an association list in insertion
      order (the code iterates over [items()] and [values()], so order is
      observable).
    - Effects (files, HTTP requests, [print], [time.sleep]) are threaded
      through a state-and-exception monad [M] over a [world]: the files on
      disk as a finite map from paths to contents, and the trace of
      requests, printed messages and sleeps, most recent first.  The remote
      side is an arbitrary function of the requests made so far.
    - The [while True] loop of [update_cache_full] runs on fuel.

    Modelling conventions, stated once:
    - a string is the UTF-8 bytes of a Python [str];
    - [int(str)] is computed on the plain texts (ASCII, at most 640
      characters); on the others (digits and blanks of Unicode, the digit
      limit of recent versions) it is a parameter ([int_other]);
    - directories and permissions are not modelled: [os.makedirs] does
      nothing and a file opened for writing is created.  What is stated
      about the files a run writes is about an environment that lets the
      scripts create them; what is stated about the files a run leaves
      alone does not depend on it;
    - [str()] / [repr()] of floats, lists and dicts is a parameter
      ([py_repr]) of the development. *)

From Stdlib Require Import ZArith List String Ascii Bool Lia.
From Stdlib Require Import Floats.SpecFloat DecimalString.
From stdpp Require Import base gmap strings list.

Set Warnings "-register-all".
Local Open Scope Z_scope.

(** ** Python values and the builtins the scripts use *)

Module Py.

Inductive pyval : Type :=
| PNone
| PBool (b : bool)
| PInt (z : Z)
| PFloat (f : spec_float)
| PStr (s : string)
| PList (l : list pyval)
| PDict (d : list (string * pyval)).

(** A Python dict with string keys, in insertion order. *)
Abbreviation dict := (list (string * pyval)).

Inductive exn : Type :=
| AttributeError
| TypeError
| ValueError
| OverflowError
| KeyError
| RuntimeError (msg : string)
| JSONDecodeError
| HTTPError
| ConnectionError
| InvalidURL
| SystemExit (code : Z).

Inductive result (A : Type) : Type :=
| Ok (a : A)
| Raise (e : exn).
Arguments Ok {A} a.
Arguments Raise {A} e.

(** [d[k]] as a partial lookup: the first binding of [k]. *)
Fixpoint dict_get (d : dict) (k : string) : option pyval :=
  match d with
  | [] => None
  | (k', v) :: r => if String.eqb k' k then Some v else dict_get r k
  end.

(** [d.get(k)]: [None] when the key is absent. *)
Definition get (d : dict) (k : string) : pyval :=
  match dict_get d k with Some v => v | None => PNone end.

(** [d.get(k, dflt)]: the default only when the key is absent. *)
Definition get_or (d : dict) (k : string) (dflt : pyval) : pyval :=
  match dict_get d k with Some v => v | None => dflt end.

(** [k in d] *)
Definition has_key (d : dict) (k : string) : bool :=
  match dict_get d k with Some _ => true | None => false end.

(** [d[k] = v]: an existing key keeps its position, a new one goes last. *)
Fixpoint dict_set (d : dict) (k : string) (v : pyval) : dict :=
  match d with
  | [] => [(k, v)]
  | (k', v') :: r =>
      if String.eqb k' k then (k', v) :: r else (k', v') :: dict_set r k v
  end.

(** [d.pop(k, None)], result discarded. *)
Definition dict_pop (d : dict) (k : string) : dict :=
  List.filter (fun kv => negb (String.eqb (fst kv) k)) d.

(** [d.values()] *)
Definition values (d : dict) : list pyval := map snd d.

(** [for k, v in src.items(): d[k] = v] *)
Definition dict_update (d src : dict) : dict :=
  fold_left (fun acc kv => dict_set acc (fst kv) (snd kv)) src d.

(** [bool(v)] *)
Definition truthy (v : pyval) : bool :=
  match v with
  | PNone => false
  | PBool b => b
  | PInt z => negb (z =? 0)
  | PFloat (S754_zero _) => false
  | PFloat _ => true
  | PStr EmptyString => false
  | PStr _ => true
  | PList [] => false
  | PList _ => true
  | PDict [] => false
  | PDict _ => true
  end.

(** [a or b] *)
Definition py_or (a b : pyval) : pyval := if truthy a then a else b.

(** [v is True] *)
Definition is_True (v : pyval) : bool :=
  match v with PBool true => true | _ => false end.

(** [isinstance(v, bool)] *)
Definition is_bool (v : pyval) : bool :=
  match v with PBool _ => true | _ => false end.

(** [isinstance(v, (int, float))]; [bool] is a subclass of [int]. *)
Definition is_number (v : pyval) : bool :=
  match v with PBool _ | PInt _ | PFloat _ => true | _ => false end.

(** [v > 0] for a number [v] ([False] for NaN). *)
Definition gt_zero (v : pyval) : bool :=
  match v with
  | PBool b => b
  | PInt z => 0 <? z
  | PFloat (S754_infinity false) => true
  | PFloat (S754_finite false _ _) => true
  | _ => false
  end.

(** [isinstance(v, str) and v.startswith("http")] *)
Definition is_http_str (v : pyval) : bool :=
  match v with PStr s => String.prefix "http" s | _ => false end.


(** [v == "ok"] and the like: equality of a value with a string literal. *)
Definition eq_str (v : pyval) (lit : string) : bool :=
  match v with PStr s => String.eqb s lit | _ => false end.

(** [needle in s] for two strings. *)
Definition is_substring (needle s : string) : bool :=
  match String.index 0 needle s with Some _ => true | None => false end.

(** The value of a finite float is [(-1)^s * m * 2^e]. *)
Definition signed (s : bool) (m : Z) : Z := if s then - m else m.

(** [int(f)] for a float: truncation toward zero. *)
Definition float_to_int (f : spec_float) : result Z :=
  match f with
  | S754_zero _ => Ok 0
  | S754_infinity _ => Raise OverflowError
  | S754_nan => Raise ValueError
  | S754_finite s m e =>
      Ok (signed s (if 0 <=? e then Z.pos m * 2 ^ e else Z.pos m / 2 ^ (- e)))
  end.

(** [page >= f] for an int and a float: Python compares the exact values. *)
Definition int_ge_float (page : Z) (f : spec_float) : bool :=
  match f with
  | S754_zero _ => 0 <=? page
  | S754_infinity s => s
  | S754_nan => false
  | S754_finite s m e =>
      if 0 <=? e then signed s (Z.pos m * 2 ^ e) <=? page
      else signed s (Z.pos m) <=? page * 2 ^ (- e)
  end.

(** [page >= v] with [page] an int: [TypeError] unless [v] is a number. *)
Definition int_ge (page : Z) (v : pyval) : result bool :=
  match v with
  | PBool b => Ok ((if b then 1 else 0) <=? page)
  | PInt z => Ok (z <=? page)
  | PFloat f => Ok (int_ge_float page f)
  | _ => Raise TypeError
  end.

(** *** [int(str)] *)

(** The blanks [int()] skips around an ASCII text: tab, line feed, vertical
    tab, form feed, carriage return and space.  (The separators 28..31,
    blanks for [str.strip], are not blanks here.) *)
Definition is_space (c : ascii) : bool :=
  let n := Z.of_nat (nat_of_ascii c) in
  ((9 <=? n) && (n <=? 13)) || (n =? 32).

Fixpoint lstrip (s : list ascii) : list ascii :=
  match s with
  | c :: r => if is_space c then lstrip r else s
  | [] => []
  end.

Definition strip (s : list ascii) : list ascii :=
  rev (lstrip (rev (lstrip s))).

Definition digit_val (c : ascii) : option Z :=
  let n := Z.of_nat (nat_of_ascii c) in
  if (48 <=? n) && (n <=? 57) then Some (n - 48) else None.

(** Decimal digits, single underscores allowed between two digits.
    [prev] tells whether the previous character was a digit. *)
Fixpoint digits (acc : Z) (prev : bool) (s : list ascii) : option Z :=
  match s with
  | [] => if prev then Some acc else None
  | c :: r =>
      if Ascii.eqb c "_" then (if prev then digits acc false r else None)
      else match digit_val c with
           | Some d => digits (10 * acc + d) true r
           | None => None
           end
  end.

(** [int(s)] for a text of ASCII characters: blanks, an optional sign, the
    digits, blanks. *)
Definition int_of_ascii (s : string) : option Z :=
  match strip (list_ascii_of_string s) with
  | c :: r =>
      if Ascii.eqb c "+" then digits 0 false r
      else if Ascii.eqb c "-" then option_map Z.opp (digits 0 false r)
      else digits 0 false (c :: r)
  | [] => None
  end.

(** Every character of [s] is ASCII: no byte above 127 in its UTF-8 form. *)
Definition is_ascii (s : string) : bool :=
  forallb (fun c => Z.of_nat (nat_of_ascii c) <? 128) (list_ascii_of_string s).

(** The texts whose conversion is computed here: ASCII, and of at most 640
    characters.  Beyond ASCII [int()] also reads the decimal digits and the
    blanks of Unicode (the fullwidth digits, say), whose tables change with
    the version of Python; and a text of more than 640 digits is refused
    or not according to the version and to [sys.set_int_max_str_digits]. *)
Definition plain (s : string) : bool :=
  is_ascii s && (Z.of_nat (String.length s) <=? 640).

(** [int(s)] for a string; [int_other] is [int()] on the texts that are not
    [plain], [None] standing for [ValueError]. *)
Definition int_of_string (int_other : string -> option Z) (s : string) : option Z :=
  if plain s then int_of_ascii s else int_other s.

(** [int(v)] *)
Definition py_int (int_other : string -> option Z) (v : pyval) : result Z :=
  match v with
  | PBool b => Ok (if b then 1 else 0)
  | PInt z => Ok z
  | PFloat f => float_to_int f
  | PStr s => match int_of_string int_other s with
              | Some z => Ok z
              | None => Raise ValueError
              end
  | _ => Raise TypeError
  end.

(** *** Paths *)

(** [s.split(c)[0]]: the part of [s] before the first [c]. *)
Fixpoint before_char (c : ascii) (s : string) : string :=
  match s with
  | EmptyString => EmptyString
  | String a r => if Ascii.eqb a c then EmptyString else String a (before_char c r)
  end.

(** [s.rfind(c)]: the last index of [c], or -1. *)
Fixpoint rfind_from (c : ascii) (i : Z) (s : list ascii) (found : Z) : Z :=
  match s with
  | [] => found
  | a :: r => rfind_from c (i + 1) r (if Ascii.eqb a c then i else found)
  end.
Definition rfind (c : ascii) (s : list ascii) : Z := rfind_from c 0 s (-1).

(** [os.path.splitext(p)[1]] (posixpath): the extension starts at the last
    dot of the last component, unless only dots precede it there. *)
Definition splitext_ext (p : string) : string :=
  let l := list_ascii_of_string p in
  let sepIndex := rfind "/" l in
  let dotIndex := rfind "." l in
  if sepIndex <? dotIndex then
    let name := take (Z.to_nat (dotIndex - (sepIndex + 1)))
                     (drop (Z.to_nat (sepIndex + 1)) l) in
    if existsb (fun a => negb (Ascii.eqb a ".")) name
    then string_of_list_ascii (drop (Z.to_nat dotIndex) l)
    else EmptyString
  else EmptyString.

(** [s.endswith(c)] *)
Definition ends_with (c : ascii) (s : string) : bool :=
  match rev (list_ascii_of_string s) with
  | a :: _ => Ascii.eqb a c
  | [] => false
  end.

(** [os.path.join(a, b)] (posixpath, two arguments). *)
Definition os_path_join (a b : string) : string :=
  if String.prefix "/" b then b
  else if String.eqb a "" || ends_with "/" a then a +:+ b
  else a +:+ "/" +:+ b.

(** [a or b] for two strings. *)
Definition str_or (a b : string) : string :=
  if String.eqb a "" then b else a.

(** [str(z)] for an int. *)
Definition str_of_int (z : Z) : string := NilZero.string_of_int (Z.to_int z).

(** [str(v)], as used by f-strings and [+ str(data)]; [py_repr] gives the
    text of the values whose text form is not modelled. *)
Definition py_str (py_repr : pyval -> string) (v : pyval) : string :=
  match v with
  | PStr s => s
  | PInt z => str_of_int z
  | PBool true => "True"
  | PBool false => "False"
  | PNone => "None"
  | _ => py_repr v
  end.

(** [v.get(k, dflt)] on an arbitrary value. *)
Definition attr_get_or (v : pyval) (k : string) (dflt : pyval) : result pyval :=
  match v with
  | PDict d => Ok (get_or d k dflt)
  | _ => Raise AttributeError
  end.

(** [v.items()] on an arbitrary value. *)
Definition items (v : pyval) : result dict :=
  match v with
  | PDict d => Ok d
  | _ => Raise AttributeError
  end.

End Py.
Export Py.

(** ** The world outside the scripts *)

Module Sys.

(** What [requests.get] is asked for. *)
Inductive request : Type :=
| ReqShipsPage (page_no : Z)
| ReqImage (url : string)
| ReqShipDetail (ship_id : pyval).

(** What comes back.  [resp_ok]: the HTTP status lets [raise_for_status()]
    pass; [resp_json]: the result of [r.json()], [None] when the body is not
    JSON; [resp_chunks]: what [iter_content] yields; [resp_broken]: the
    stream fails after these chunks. *)
Record response : Type := {
  resp_ok : bool;
  resp_json : option pyval;
  resp_chunks : list string;
  resp_broken : bool
}.

(** [NoReply]: [requests.get] itself raises (connection error, timeout). *)
Inductive reply : Type :=
| NoReply
| Reply (r : response).

(** The [print] calls of the two scripts, by content. *)
Inductive message : Type :=
| MsgFetchingAll
| MsgFetchedPage (page : Z) (page_total : pyval) (collected : nat)
| MsgCacheSaved (n : nat)
| MsgImageFailed (url : pyval) (e : exn)
| MsgClassifying
| MsgDownloaded (fname : string)
| MsgTierSaved (path : string) (n : nat)
| MsgNoApiKey
| MsgCacheInvalid
| MsgCacheLoaded
| MsgDone
| MsgDetailExists (ship_name : pyval)
| MsgDetailFailed (ship_name ship_id data : pyval)
| MsgDetailSaved (ship_name : pyval)
| MsgDetailError (ship_name : pyval) (e : exn).

Inductive event : Type :=
| EvRequest (r : request)
| EvPrint (m : message)
| EvSleep (ms : Z).

(** A file holds JSON text (kept as the value it parses to) or other bytes. *)
Inductive file : Type :=
| FJson (v : pyval)
| FData (chunks : list string).

(** [trace]: what has happened so far, the most recent event first. *)
Record world : Type := {
  files : gmap string file;
  trace : list event
}.

Definition requests_of (t : list event) : list request :=
  omap (fun e => match e with EvRequest r => Some r | _ => None end) t.

Definition sleeps_of (t : list event) : list Z :=
  omap (fun e => match e with EvSleep ms => Some ms | _ => None end) t.

(** Outcome of a run: a value, a Python exception, or the fuel of a loop
    ran out. *)
Inductive outcome (A : Type) : Type :=
| Done (a : A)
| Exc (e : exn)
| OutOfFuel.
Arguments Done {A} a.
Arguments Exc {A} e.
Arguments OutOfFuel {A}.

Definition M (A : Type) : Type := world -> outcome A * world.

Definition ret {A} (a : A) : M A := fun w => (Done a, w).
Definition raise {A} (e : exn) : M A := fun w => (Exc e, w).
Definition out_of_fuel {A} : M A := fun w => (OutOfFuel, w).

Definition bind {A B} (m : M A) (k : A -> M B) : M B :=
  fun w => match m w with
           | (Done a, w') => k a w'
           | (Exc e, w') => (Exc e, w')
           | (OutOfFuel, w') => (OutOfFuel, w')
           end.

(** [try: m  except Exception as e: h e] *)
Definition try_except {A} (m : M A) (h : exn -> M A) : M A :=
  fun w => match m w with
           | (Exc e, w') => h e w'
           | r => r
           end.

Definition lift {A} (r : result A) : M A :=
  match r with Ok a => ret a | Raise e => raise e end.

Notation "'let*' x ':=' m 'in' k" := (bind m (fun x => k))
  (at level 10, x name, m at level 100, k at level 200).
Notation "m '>>' k" := (bind m (fun _ => k))
  (at level 90, right associativity).

Definition emit (e : event) : M unit :=
  fun w => (Done tt, {| files := files w; trace := e :: trace w |}).

Definition print (m : message) : M unit := emit (EvPrint m).
Definition sleep (ms : Z) : M unit := emit (EvSleep ms).

(** [os.path.exists(p)] *)
Definition path_exists (p : string) : M bool :=
  fun w => (Done (bool_decide (is_Some (files w !! p))), w).

(** Replace the content of [p]. *)
Definition write_file (p : string) (f : file) : M unit :=
  fun w => (Done tt, {| files := <[p := f]> (files w); trace := trace w |}).

(** [os.makedirs]: directories are not part of the model. *)
Definition makedirs (p : string) : M unit := ret tt.

(** [json.dump(data, open(path, "w"))] *)
Definition save_json (path : string) (data : pyval) : M unit :=
  write_file path (FJson data).

(** [load_json]: [None] for a missing file, otherwise [json.load]. *)
Definition load_json (path : string) : M pyval :=
  let* e := path_exists path in
  if negb e then ret PNone
  else fun w => match files w !! path with
                | Some (FJson v) => (Done v, w)
                | _ => (Exc JSONDecodeError, w)
                end.

Section Remote.

(** The remote side: the reply depends on the request and on the requests
    made before it (most recent first). *)
Variable remote : list request -> request -> reply.

(** [requests.get(...)] *)
Definition requests_get (req : request) : M response :=
  fun w =>
    let w' := {| files := files w; trace := EvRequest req :: trace w |} in
    match remote (requests_of (trace w)) req with
    | NoReply => (Exc ConnectionError, w')
    | Reply r => (Done r, w')
    end.

(** [r.raise_for_status()] *)
Definition raise_for_status (r : response) : M unit :=
  if resp_ok r then ret tt else raise HTTPError.

(** [r.json()] *)
Definition json (r : response) : M pyval :=
  match resp_json r with Some v => ret v | None => raise JSONDecodeError end.

End Remote.

End Sys.
Export Sys.

(** ** main.py *)

Module Main.

Definition API_KEY : string := "352f3820d1e216d1896d0e3d430b829c".
Definition CACHE_FILE : string := "ships_cache.json".
Definition IMAGES_DIR : string := "images".
Definition TIERS_DIR : string := "tiers".
(** [REQUEST_DELAY = 0.2] seconds, in milliseconds. *)
Definition REQUEST_DELAY : Z := 200.

Definition ensure_dirs : M unit :=
  makedirs IMAGES_DIR >> makedirs TIERS_DIR.

(** *** Eligibility classifier *)

(** [isinstance(v, (int, float)) and v > 0] *)
Definition positive_number (v : pyval) : bool := is_number v && gt_zero v.

(** The [price.values()] loop of [is_buyable_or_researchable]. *)
Definition any_positive (vs : list pyval) : bool := existsb positive_number vs.

(** Lines 162-172: the price checks, in the source's order. *)
Definition has_price (sdata : dict) : bool :=
  let price := py_or (get sdata "price") (get sdata "prices") in
  if match price with
     | PDict p => truthy price && any_positive (values p)
     | _ => false
     end
  then true
  else if positive_number (get sdata "price_credit") then true
  else if positive_number (get sdata "price_gold") then true
  else false.

(** The body of [is_buyable_or_researchable] once [sdata] is known to be a
    non-empty dict; the [if]s are the source's, in order. *)
Definition eligible_fields (sdata : dict) : bool :=
  if is_True (get sdata "is_premium") then false
  else if truthy (get sdata "is_collectible") || truthy (get sdata "is_special")
  then false
  else if is_True (get sdata "is_researchable") then true
  else has_price sdata.

Definition is_buyable_or_researchable (sdata : pyval) : result bool :=
  if negb (truthy sdata) then Ok false
  else match sdata with
       | PDict d => Ok (eligible_fields d)
       | _ => Raise AttributeError
       end.

(** *** Image URL resolution *)

(** [for key in keys: url = d.get(key); if url: return url] *)
Fixpoint first_truthy (d : dict) (keys : list string) : option pyval :=
  match keys with
  | [] => None
  | k :: r => if truthy (get d k) then Some (get d k) else first_truthy d r
  end.

(** [for key in keys: url = d.get(key); if str and startswith http: return] *)
Fixpoint first_http (d : dict) (keys : list string) : option pyval :=
  match keys with
  | [] => None
  | k :: r => if is_http_str (get d k) then Some (get d k) else first_http d r
  end.

(** Step 1 of [guess_image_url_from_shipdata], on the [images] value. *)
Definition guess_from_images (images : pyval) : option pyval :=
  match images with
  | PDict im =>
      match first_truthy im ["large"; "big"; "small"; "preview"; "contour_icon"]%string with
      | Some url => Some url
      | None => List.find is_http_str (values im)
      end
  | _ => None
  end.

Definition guess_image_url_fields (sdata : dict) : pyval :=
  match guess_from_images (get sdata "images") with
  | Some url => url
  | None =>
      let image := py_or (py_or (get sdata "image") (get sdata "picture"))
                         (get sdata "preview") in
      if is_http_str image then image
      else match first_http sdata
                   ["image_small"; "image_large"; "icon"; "contour_image"]%string with
           | Some url => url
           | None => PNone
           end
  end.

Definition guess_image_url_from_shipdata (sdata : pyval) : result pyval :=
  if negb (truthy sdata) then Ok PNone
  else match sdata with
       | PDict d => Ok (guess_image_url_fields d)
       | _ => Raise AttributeError
       end.

Section WithRemote.

Variable remote : list request -> request -> reply.
Variable py_repr : pyval -> string.
(** [int()] on the strings that are not [plain]. *)
Variable int_other : string -> option Z.

(** *** Remote catalog client and cache *)

(** [get_ships_page(page_no)], with [fields=None]. *)
Definition get_ships_page (page_no : Z) : M pyval :=
  let* r := requests_get remote (ReqShipsPage page_no) in
  raise_for_status r >>
  json r.

(** The [while True] loop of [update_cache_full]. *)
Fixpoint update_cache_loop (fuel : nat) (page : Z) (cache : dict) : M dict :=
  match fuel with
  | O => out_of_fuel
  | S fuel' =>
      let* data := get_ships_page page in
      let* status := lift (attr_get_or data "status" PNone) in
      if negb (eq_str status "ok") then
        raise (RuntimeError ("API error when fetching ships list: " +:+ py_str py_repr data))
      else
        let* ships := lift (attr_get_or data "data" (PDict [])) in
        let* ships_items := lift (items ships) in
        let cache := dict_update cache ships_items in
        let* meta := lift (attr_get_or data "meta" (PDict [])) in
        let* page_total := lift (attr_get_or meta "page_total" (PInt 1)) in
        print (MsgFetchedPage page page_total (length cache)) >>
        let* last := lift (int_ge page page_total) in
        if last then ret cache
        else sleep REQUEST_DELAY >> update_cache_loop fuel' (page + 1) cache
  end.

Definition update_cache_full (fuel : nat) : M dict :=
  print MsgFetchingAll >>
  let* cache := update_cache_loop fuel 1 [] in
  save_json CACHE_FILE (PDict cache) >>
  print (MsgCacheSaved (length cache)) >>
  ret cache.

Definition load_or_update_cache (fuel : nat) (force_update : bool) : M pyval :=
  let* present := path_exists CACHE_FILE in
  if force_update || negb present then
    let* c := update_cache_full fuel in ret (PDict c)
  else
    let* cache := load_json CACHE_FILE in
    match cache with
    | PNone => let* c := update_cache_full fuel in ret (PDict c)
    | _ => ret cache
    end.

(** *** Asset mirror *)

(** [for chunk in r.iter_content(...): f.write(chunk)] into the file opened
    at [out_path]. *)
Fixpoint write_chunks (out_path : string) (written todo : list string) : M unit :=
  match todo with
  | [] => ret tt
  | c :: r =>
      write_file out_path (FData (written ++ [c])) >>
      write_chunks out_path (written ++ [c]) r
  end.

(** [requests.get] refuses a url that is not a string before anything is
    sent. *)
Definition download_image (url : pyval) (out_path : string) : M bool :=
  if negb (truthy url) then ret false
  else
    let* present := path_exists out_path in
    if present then ret true
    else
      try_except
        (let* r := match url with
                   | PStr u => requests_get remote (ReqImage u)
                   | _ => raise InvalidURL
                   end in
         raise_for_status r >>
         write_file out_path (FData []) >>
         write_chunks out_path [] (resp_chunks r) >>
         (if resp_broken r then raise ConnectionError else ret tt) >>
         ret true)
        (fun e => print (MsgImageFailed url e) >> ret false).

(** *** Tier partitioner *)

(** Lines 185-188: the ["tier"] field, else the ["level"] field. *)
Definition tier_field (s : dict) : pyval :=
  match get s "tier" with
  | PNone => get s "level"
  | tier => tier
  end.

(** Lines 189-192: the tier after the [try]/[except]; [None] for a missing
    or non-convertible value. *)
Definition resolve_tier (s : dict) : option Z :=
  match tier_field s with
  | PNone => None
  | tier => match py_int int_other tier with Ok z => Some z | Raise _ => None end
  end.

(** [not tier or not (1 <= tier <= 10)] *)
Definition tier_rejected (tier : option Z) : bool :=
  match tier with
  | None => true
  | Some t => (t =? 0) || negb ((1 <=? t) && (t <=? 10))
  end.

(** The ship summary before the image fields are added. *)
Definition ship_entry_of (sid : string) (s : dict) (tier : Z) : dict :=
  [ ("ship_id", py_or (get s "ship_id") (PStr sid));
    ("name", py_or (py_or (get s "name") (get s "localized_name")) (get s "ship_name"));
    ("tier", PInt tier);
    ("type", py_or (get s "type") (get s "ship_type")) ]%string.

(** [tiers = {i: [] for i in range(1, 11)}] *)
Definition empty_tiers : gmap Z (list pyval) :=
  list_to_map (map (fun t => (t, [])) [1; 2; 3; 4; 5; 6; 7; 8; 9; 10]).

(** [tiers[tier].append(entry)] *)
Definition tiers_append (tiers : gmap Z (list pyval)) (tier : Z) (entry : dict)
  : M (gmap Z (list pyval)) :=
  match tiers !! tier with
  | Some l => ret (<[tier := l ++ [PDict entry]]> tiers)
  | None => raise KeyError
  end.

(** Lines 205-223: the image fields of one entry. *)
Definition attach_image (download_images : bool) (s : pyval) (ship_entry : dict)
  : M dict :=
  let* img_url := lift (guess_image_url_from_shipdata s) in
  if truthy img_url then
    let ship_entry := dict_set ship_entry "image_url" img_url in
    match img_url with
    | PStr u =>
        let ext := str_or (splitext_ext (before_char "?" u)) ".jpg" in
        let fname := ("ship_" +:+ py_str py_repr (get ship_entry "ship_id") +:+ ext)%string in
        let ship_entry := dict_set ship_entry "image" (PStr fname) in
        if download_images then
          let outpath := os_path_join IMAGES_DIR fname in
          let* present := path_exists outpath in
          if negb present then
            let* ok := download_image img_url outpath in
            if ok then print (MsgDownloaded fname) >> ret ship_entry
            else ret (dict_pop ship_entry "image")
          else ret ship_entry
        else ret ship_entry
    | _ => raise AttributeError
    end
  else ret ship_entry.

(** One iteration of the [for sid, s in cache.items()] loop. *)
Definition classify_ship (download_images : bool) (sid : string) (s : pyval)
    (tiers : gmap Z (list pyval)) : M (gmap Z (list pyval)) :=
  match s with
  | PDict d =>
      let tier := resolve_tier d in
      if tier_rejected tier then ret tiers
      else
        let* eligible := lift (is_buyable_or_researchable s) in
        if negb eligible then ret tiers
        else
          let t := match tier with Some t => t | None => 0 end in
          let* ship_entry := attach_image download_images s (ship_entry_of sid d t) in
          let* tiers := tiers_append tiers t ship_entry in
          sleep REQUEST_DELAY >>
          ret tiers
  | _ => raise AttributeError
  end.

Fixpoint classify_all (download_images : bool) (cache : dict)
    (tiers : gmap Z (list pyval)) : M (gmap Z (list pyval)) :=
  match cache with
  | [] => ret tiers
  | (sid, s) :: rest =>
      let* tiers := classify_ship download_images sid s tiers in
      classify_all download_images rest tiers
  end.

(** [for t in range(1, 11): save_json(...); print(...)] *)
Fixpoint save_tiers (tiers : gmap Z (list pyval)) (ts : list Z) : M unit :=
  match ts with
  | [] => ret tt
  | t :: rest =>
      let path := os_path_join TIERS_DIR ("tier_" +:+ str_of_int t +:+ ".json")%string in
      match tiers !! t with
      | Some l =>
          save_json path (PList l) >>
          print (MsgTierSaved path (length l)) >>
          save_tiers tiers rest
      | None => raise KeyError
      end
  end.

Definition build_tiers_and_images (cache : dict) (download_images : bool)
  : M (gmap Z (list pyval)) :=
  print MsgClassifying >>
  let* tiers := classify_all download_images cache empty_tiers in
  save_tiers tiers [1; 2; 3; 4; 5; 6; 7; 8; 9; 10] >>
  ret tiers.

(** *** Entry point *)

(** ["ship_id" in v] *)
Definition contains_ship_id (v : pyval) : result bool :=
  match v with
  | PDict d => Ok (has_key d "ship_id")
  | PStr s => Ok (is_substring "ship_id" s)
  | PList l => Ok (existsb (fun x => eq_str x "ship_id") l)
  | _ => Raise TypeError
  end.

(** [any(f(v) for v in vs)]: stops at the first true element. *)
Fixpoint py_any {A} (f : A -> result bool) (vs : list A) : result bool :=
  match vs with
  | [] => Ok false
  | v :: r =>
      match f v with
      | Ok true => Ok true
      | Ok false => py_any f r
      | Raise e => Raise e
      end
  end.

(** The condition of line 244:
    [not isinstance(cache, dict) or not any("ship_id" in v for v in cache.values())] *)
Definition cache_rejected (cache : pyval) : result bool :=
  match cache with
  | PDict d =>
      match py_any contains_ship_id (values d) with
      | Ok b => Ok (negb b)
      | Raise e => Raise e
      end
  | _ => Ok true
  end.

(** Lines 236-246 of [main]: the cache handed to [build_tiers_and_images]. *)
Definition main_cache (fuel : nat) : M dict :=
  (if negb (truthy (PStr API_KEY)) || String.eqb API_KEY "YOUR_APPLICATION_ID"
   then print MsgNoApiKey >> raise (SystemExit 1) else ret tt) >>
  ensure_dirs >>
  let* cache := load_or_update_cache fuel false in
  let* rejected := lift (cache_rejected cache) in
  if rejected then
    print MsgCacheInvalid >>
    update_cache_full fuel
  else lift (items cache).

Definition main (fuel : nat) : M unit :=
  let* cache := main_cache fuel in
  print MsgCacheLoaded >>
  let* _t := build_tiers_and_images cache true in
  print MsgDone.

End WithRemote.

End Main.

(** ** get.py *)

Module Get.

Definition OUTPUT_DIR : string := "ships_data".
(** [sleep(0.3)], in milliseconds. *)
Definition DETAIL_DELAY : Z := 300.

Definition ensure_dir (path : string) : M unit :=
  let* present := path_exists path in
  if negb present then makedirs path else ret tt.

Section WithRemote.

Variable remote : list request -> request -> reply.
Variable py_repr : pyval -> string.

Definition fetch_and_save_ship (ship_name ship_id : pyval) : M unit :=
  ensure_dir OUTPUT_DIR >>
  let filepath := os_path_join OUTPUT_DIR (py_str py_repr ship_name +:+ ".json") in
  let* present := path_exists filepath in
  if present then print (MsgDetailExists ship_name)
  else
    try_except
      (let* r := requests_get remote (ReqShipDetail ship_id) in
       let* data := json r in
       let* status := lift (attr_get_or data "status" PNone) in
       if negb (eq_str status "ok") then
         print (MsgDetailFailed ship_name ship_id data)
       else
         save_json filepath data >>
         print (MsgDetailSaved ship_name) >>
         sleep DETAIL_DELAY)
      (fun e => print (MsgDetailError ship_name e)).

End WithRemote.

End Get.

(** ** Python dicts keyed by arbitrary values *)

Module PyKeys.

(** What a dict key is compared by.  Numbers ([bool], [int], [float]) are
    equal as keys when their values are: a finite number is kept as
    [m * 2^e] with [m] odd (or [0 * 2^0]).  Every NaN that [json.load]
    returns is one and the same object, hence one key.  Lists and dicts
    cannot be keys. *)
Inductive keyval : Type :=
| KNone
| KStr (s : string)
| KNum (m e : Z)
| KInf (negative : bool)
| KNan
| Unhashable.

#[global] Instance keyval_eq_dec : EqDecision keyval.
Proof. solve_decision. Defined.

(** [p = p' * 2^k] with [p'] odd. *)
Fixpoint strip (p : positive) : positive * Z :=
  match p with
  | xO q => let (q', k) := strip q in (q', k + 1)
  | _ => (p, 0)
  end.

Definition normal (m e : Z) : keyval :=
  match m with
  | Z0 => KNum 0 0
  | Zpos p => let (p', k) := strip p in KNum (Zpos p') (e + k)
  | Zneg p => let (p', k) := strip p in KNum (Zneg p') (e + k)
  end.

Definition key_of (v : pyval) : keyval :=
  match v with
  | PNone => KNone
  | PBool b => normal (if b then 1 else 0) 0
  | PInt z => normal z 0
  | PFloat (S754_zero _) => KNum 0 0
  | PFloat (S754_infinity s) => KInf s
  | PFloat S754_nan => KNan
  | PFloat (S754_finite s m e) => normal (signed s (Zpos m)) e
  | PStr s => KStr s
  | PList _ | PDict _ => Unhashable
  end.

(** [hash(v)] succeeds. *)
Definition hashable (v : pyval) : bool :=
  match v with PList _ | PDict _ => false | _ => true end.

(** Two values are the same key. *)
Definition key_eqb (a b : pyval) : bool := bool_decide (key_of a = key_of b).

(** A dict with arbitrary keys, in insertion order. *)
Abbreviation kdict := (list (pyval * pyval)).

Fixpoint kdict_get (d : kdict) (k : pyval) : option pyval :=
  match d with
  | [] => None
  | (k', v) :: r => if key_eqb k' k then Some v else kdict_get r k
  end.

(** [d[k] = v] for a hashable [k]: an existing key stays as it is, with its
    position; a new one goes last. *)
Fixpoint kdict_set (d : kdict) (k v : pyval) : kdict :=
  match d with
  | [] => [(k, v)]
  | (k', v') :: r =>
      if key_eqb k' k then (k', v) :: r else (k', v') :: kdict_set r k v
  end.

(** [d[k] = v] *)
Definition setitem (d : kdict) (k v : pyval) : result kdict :=
  if hashable k then Ok (kdict_set d k v) else Raise TypeError.

(** [d.update(src)] *)
Definition kdict_update (d src : kdict) : kdict :=
  fold_left (fun acc kv => kdict_set acc (fst kv) (snd kv)) src d.

End PyKeys.
Export PyKeys.

(** ** get.py: the tier files and the main loop *)

Module GetMain.

(** The [print] calls of [main] and [get_all_tier_files]. *)
Inductive notice : Type :=
| NoApiKey
| TierFileMissing (f : string)
| LoadingTiers
| ShipsDetected (n : nat)
| AllSaved.

(** What can end these functions early: a Python exception of the kinds
    already met, or [open] not finding the file. *)
Inductive failure : Type :=
| PyExn (e : exn)
| FileNotFoundError (path : string).

Inductive goutcome (A : Type) : Type :=
| GDone (a : A)
| GFail (f : failure)
| GOutOfFuel.
Arguments GDone {A} a.
Arguments GFail {A} f.
Arguments GOutOfFuel {A}.

(** The world, and the notices printed so far (most recent first), each
    with the number of trace events that precede it: this fixes the order
    of the whole output. *)
Record state : Type := {
  base : world;
  notices : list (nat * notice)
}.

Definition G (A : Type) : Type := state -> goutcome A * state.

Definition gret {A} (a : A) : G A := fun s => (GDone a, s).
Definition gfail {A} (f : failure) : G A := fun s => (GFail f, s).

Definition gbind {A B} (m : G A) (k : A -> G B) : G B :=
  fun s => match m s with
           | (GDone a, s') => k a s'
           | (GFail f, s') => (GFail f, s')
           | (GOutOfFuel, s') => (GOutOfFuel, s')
           end.

Notation "'let+' x ':=' m 'in' k" := (gbind m (fun x => k))
  (at level 10, x name, m at level 100, k at level 200).

(** An action of the world, run inside [G]. *)
Definition run {A} (m : M A) : G A :=
  fun s => match m (base s) with
           | (Done a, w) => (GDone a, {| base := w; notices := notices s |})
           | (Exc e, w) => (GFail (PyExn e), {| base := w; notices := notices s |})
           | (OutOfFuel, w) => (GOutOfFuel, {| base := w; notices := notices s |})
           end.

Definition glift {A} (r : result A) : G A :=
  match r with Ok a => gret a | Raise e => gfail (PyExn e) end.

Definition note (n : notice) : G unit :=
  fun s => (GDone tt,
            {| base := base s;
               notices := (length (trace (base s)), n) :: notices s |}).

Definition API_KEY : string := "352f3820d1e216d1896d0e3d430b829c".
Definition TIERS_DIR : string := "tiers".

(** The loop of [get_all_tier_files] over the tiers [ts]. *)
Fixpoint tier_files_loop (ts : list Z) (found : list string) : G (list string) :=
  match ts with
  | [] => gret found
  | i :: rest =>
      let f := os_path_join TIERS_DIR ("tier_" +:+ str_of_int i +:+ ".json")%string in
      let+ present := run (path_exists f) in
      if present then tier_files_loop rest (found ++ [f])
      else let+ _u := note (TierFileMissing f) in tier_files_loop rest found
  end.

Definition get_all_tier_files : G (list string) :=
  tier_files_loop [1; 2; 3; 4; 5; 6; 7; 8; 9; 10] [].

(** [json.load(open(filepath))] *)
Definition open_json (filepath : string) : G pyval :=
  fun s => match files (base s) !! filepath with
           | None => (GFail (FileNotFoundError filepath), s)
           | Some (FJson v) => (GDone v, s)
           | Some (FData _) => (GFail (PyExn JSONDecodeError), s)
           end.

(** The loop of the [dict] branch, over [data["data"].values()]. *)
Fixpoint ships_of_data (infos : list pyval) (ships : kdict) : result kdict :=
  match infos with
  | [] => Ok ships
  | PDict info :: rest =>
      let name := get info "name" in
      if truthy name && has_key info "ship_id" then
        match setitem ships name (get info "ship_id") with
        | Ok ships' => ships_of_data rest ships'
        | Raise e => Raise e
        end
      else ships_of_data rest ships
  | _ :: _ => Raise AttributeError
  end.

(** The loop of the [list] branch. *)
Fixpoint ships_of_list (infos : list pyval) (ships : kdict) : result kdict :=
  match infos with
  | [] => Ok ships
  | PDict info :: rest =>
      let name := get info "name" in
      let sid := get info "ship_id" in
      if truthy name && truthy sid then
        match setitem ships name sid with
        | Ok ships' => ships_of_list rest ships'
        | Raise e => Raise e
        end
      else ships_of_list rest ships
  | _ :: rest => ships_of_list rest ships
  end.

(** The part of [load_ships_from_tier_file] after the file is read. *)
Definition ships_of_json (data : pyval) : result kdict :=
  match data with
  | PDict d =>
      match items (get_or d "data" (PDict [])) with
      | Ok infos => ships_of_data (values infos) []
      | Raise e => Raise e
      end
  | PList l => ships_of_list l []
  | _ => Ok []
  end.

Definition load_ships_from_tier_file (filepath : string) : G kdict :=
  let+ data := open_json filepath in
  glift (ships_of_json data).

Section WithRemote.

Variable remote : list request -> request -> reply.
Variable py_repr : pyval -> string.

(** [for file in tier_files: total_ships.update(load_ships_from_tier_file(file))] *)
Fixpoint load_all (tier_files : list string) (total_ships : kdict) : G kdict :=
  match tier_files with
  | [] => gret total_ships
  | file :: rest =>
      let+ ships := load_ships_from_tier_file file in
      load_all rest (kdict_update total_ships ships)
  end.

(** [for name, sid in total_ships.items(): fetch_and_save_ship(name, sid)] *)
Fixpoint fetch_all (ships : kdict) : G unit :=
  match ships with
  | [] => gret tt
  | (name, sid) :: rest =>
      let+ _u := run (Get.fetch_and_save_ship remote py_repr name sid) in
      fetch_all rest
  end.

Definition main : G unit :=
  if negb (truthy (PStr API_KEY)) || String.eqb API_KEY "YOUR_APPLICATION_ID"
  then note NoApiKey
  else
    let+ tier_files := get_all_tier_files in
    let+ _u := note LoadingTiers in
    let+ total_ships := load_all tier_files [] in
    let+ _v := note (ShipsDetected (length total_ships)) in
    let+ _w := fetch_all total_ships in
    note AllSaved.

End WithRemote.

End GetMain.

(** * Vocabulary of the statements, and sample data *)

(** The scenario of the specification: premium with a price of 1000000
    credits. *)
Definition premium_with_price : dict :=
  [ ("tier", PInt 5); ("is_premium", PBool true);
    ("price", PDict [("credit", PInt 1000000)]) ]%string.

(** A world in which one image has been mirrored already. *)
Definition world_with_image : world :=
  {| files := {[ "images/ship_1.png"%string := FData ["PNG"%string] ]};
     trace := [] |}.

(** A remote that never answers. *)
Definition silent_remote : list request -> request -> reply :=
  fun _ _ => NoReply.

(** [tiers/tier_{t}.json] *)
Definition tier_path (t : Z) : string :=
  os_path_join Main.TIERS_DIR ("tier_" +:+ str_of_int t +:+ ".json")%string.

(** The tier value of a record as the specification words it: the
    ["tier"] field, or the ["level"] field when there is no tier (absent,
    or null). *)
Definition stated_tier (d : dict) : pyval :=
  match dict_get d "tier" with
  | Some PNone | None => get d "level"
  | Some v => v
  end.

(** The scenario of the specification: cache entry ["100"]. *)
Definition fletcher : dict :=
  [ ("tier", PInt 5); ("is_researchable", PBool true);
    ("name", PStr "Fletcher") ]%string.

Definition fletcher_summary : dict :=
  [ ("ship_id", PStr "100"); ("name", PStr "Fletcher"); ("tier", PInt 5);
    ("type", PNone) ]%string.

Definition empty_world : world := {| files := ∅; trace := [] |}.

(** [ship_{ship_id}{ext}] for the record [d] under the cache key [sid] and
    the image url [u]. *)
Definition image_name (py_repr : pyval -> string) (sid : string) (d : dict)
    (u : string) : string :=
  ("ship_" +:+ py_str py_repr (py_or (get d "ship_id") (PStr sid))
   +:+ str_or (splitext_ext (before_char "?" u)) ".jpg")%string.

(** A researchable tier-5 ship with an image. *)
Definition with_image : dict :=
  [ ("tier", PInt 5); ("is_researchable", PBool true); ("name", PStr "Fletcher");
    ("images", PDict [("large", PStr "http://img.example/fletcher.png")]) ]%string.

(** Keys of a Python dict are pairwise distinct. *)
Definition wf_dict (d : dict) : Prop := List.NoDup (map fst d).

(** The binding of [k] in the last of [pages] that has one. *)
Definition lookup_pages (pages : list dict) (k : string) (start : option pyval)
  : option pyval :=
  fold_left (fun acc p => match dict_get p k with Some v => Some v | None => acc end)
            pages start.

(** [cache] after the pages [pages] have been merged into it, in order. *)
Definition merged (cache : dict) (pages : list dict) : dict :=
  fold_left dict_update pages cache.

(** The remote answers [req], after the requests [h], with a 2xx response
    whose body is the JSON value [j]. *)
Definition replies_json (remote : list request -> request -> reply)
    (h : list request) (req : request) (j : pyval) : Prop :=
  exists r, remote h req = Reply r /\ resp_ok r = true /\ resp_json r = Some j.

(** [j] is a page of the ship list: status ["ok"], the ships [ships] under
    ["data"], and [total] under ["meta"]["page_total"] (each with the
    default the code uses when the key is missing). *)
Definition page_listing (j : pyval) (ships : dict) (total : pyval) : Prop :=
  exists d meta,
    j = PDict d
    /\ get_or d "status" PNone = PStr "ok"
    /\ get_or d "data" (PDict []) = PDict ships
    /\ get_or d "meta" (PDict []) = PDict meta
    /\ get_or meta "page_total" (PInt 1) = total.

(** Starting after the requests [h], the pages [page], [page + 1], ... are
    served with the listings [pages], and none of them is the last one:
    its number is below the page count it reports. *)
Fixpoint continues (remote : list request -> request -> reply)
    (h : list request) (page : Z) (pages : list (dict * pyval)) : Prop :=
  match pages with
  | [] => True
  | (ships, total) :: rest =>
      (exists j, replies_json remote h (ReqShipsPage page) j
                 /\ page_listing j ships total)
      /\ int_ge page total = Ok false
      /\ continues remote (ReqShipsPage page :: h) (page + 1) rest
  end.

(** The trace after these pages have been fetched. *)
Fixpoint fetched (page : Z) (cache : dict) (pages : list (dict * pyval))
    (t : list event) : list event :=
  match pages with
  | [] => t
  | (ships, total) :: rest =>
      let cache' := dict_update cache ships in
      fetched (page + 1) cache' rest
        (EvSleep Main.REQUEST_DELAY
         :: EvPrint (MsgFetchedPage page total (length cache'))
         :: EvRequest (ReqShipsPage page) :: t)
  end.

(** The requests for [n] pages from [page] on, most recent first. *)
Fixpoint page_requests (page : Z) (n : nat) (h : list request) : list request :=
  match n with
  | O => h
  | S n' => page_requests (page + 1) n' (ReqShipsPage page :: h)
  end.

(** A page of the ship list as the API sends it. *)
Definition page_json (ships : dict) (page_total : Z) : pyval :=
  PDict [ ("status", PStr "ok");
          ("meta", PDict [("page_total", PInt page_total)]);
          ("data", PDict ships) ]%string.

Definition json_response (j : pyval) : response :=
  {| resp_ok := true; resp_json := Some j; resp_chunks := []; resp_broken := false |}.

(** A catalog of two pages, each reporting [page_total = 2]. *)
Definition page_one : dict :=
  [ ("100", PDict [("ship_id", PInt 100); ("name", PStr "Fletcher")]);
    ("200", PDict [("ship_id", PInt 200); ("name", PStr "Atago")]) ]%string.

Definition page_two : dict :=
  [ ("300", PDict [("ship_id", PInt 300); ("name", PStr "Yamato")]) ]%string.

Definition two_page_remote : list request -> request -> reply :=
  fun _ req =>
    match req with
    | ReqShipsPage 1 => Reply (json_response (page_json page_one 2))
    | ReqShipsPage 2 => Reply (json_response (page_json page_two 2))
    | _ => NoReply
    end.

(** The detail file of a ship. *)
Definition detail_path (py_repr : pyval -> string) (ship_name : pyval) : string :=
  os_path_join Get.OUTPUT_DIR (py_str py_repr ship_name +:+ ".json").

(** The reply of the API to a bad request. *)
Definition error_json : pyval :=
  PDict [ ("status", PStr "error");
          ("error", PDict [("code", PInt 407); ("message", PStr "INVALID_APPLICATION_ID")])
        ]%string.

Definition error_remote : list request -> request -> reply :=
  fun _ _ => Reply (json_response error_json).

(** [v] is a record (a JSON object). *)
Definition is_record (v : pyval) : Prop := exists r, v = PDict r.

(** The record [v] has a ["ship_id"] field. *)
Definition has_ship_id (v : pyval) : bool :=
  match v with PDict r => has_key r "ship_id" | _ => false end.






(** ** Vocabulary of the further properties *)

(** The fields [is_buyable_or_researchable] reads. *)
Definition eligibility_fields : list string :=
  [ "is_premium"; "is_collectible"; "is_special"; "is_researchable";
    "price"; "prices"; "price_credit"; "price_gold" ]%string.

(** The fields [guess_image_url_from_shipdata] reads. *)
Definition image_fields : list string :=
  [ "images"; "image"; "picture"; "preview";
    "image_small"; "image_large"; "icon"; "contour_image" ]%string.

(** The three ways a download attempt ends, for a url that is a non-empty
    string and an output path that does not exist. *)
Definition attempt (remote : list request -> request -> reply) (u out_path : string)
    (w : world) : bool * world :=
  let sent := EvRequest (ReqImage u) :: trace w in
  let failed e := EvPrint (MsgImageFailed (PStr u) e) :: sent in
  match remote (requests_of (trace w)) (ReqImage u) with
  | NoReply => (false, {| files := files w; trace := failed ConnectionError |})
  | Reply r =>
      if resp_ok r then
        (negb (resp_broken r),
         {| files := <[out_path := FData (resp_chunks r)]> (files w);
            trace := if resp_broken r then failed ConnectionError else sent |})
      else (false, {| files := files w; trace := failed HTTPError |})
  end.

(** The exception [get_ships_page] raises for a reply, if any. *)
Definition transport_error (rep : reply) : option exn :=
  match rep with
  | NoReply => Some ConnectionError
  | Reply r =>
      if resp_ok r then
        match resp_json r with Some _ => None | None => Some JSONDecodeError end
      else Some HTTPError
  end.

(** The image fields a summary can carry for the record [d] under the key
    [sid]: none when no url is found; otherwise [image_url], followed by
    [image] unless a download failed. *)
Definition image_fields_of (py_repr : pyval -> string) (sid : string) (d : dict)
    (imgs : dict) : Prop :=
  let url := Main.guess_image_url_fields d in
  (truthy url = false /\ imgs = [])
  \/ exists u, url = PStr u
               /\ (imgs = [("image_url"%string, PStr u)]
                   \/ imgs = [("image_url"%string, PStr u);
                              ("image"%string, PStr (image_name py_repr sid d u))]).

(** [e] is the summary of the cache item [kv] in tier [t]. *)
Definition summary_of (py_repr : pyval -> string) (t : Z) (kv : string * pyval)
    (e : pyval) : Prop :=
  exists d imgs,
    snd kv = PDict d
    /\ e = PDict (Main.ship_entry_of (fst kv) d t ++ imgs)
    /\ image_fields_of py_repr (fst kv) d imgs.

(** The cache item is a record of tier [t] that is eligible: [int()] of
    its tier value is [t], and the classifier accepts it. *)
Definition kept_in (int_other : string -> option Z) (t : Z) (kv : string * pyval)
  : bool :=
  match snd kv with
  | PDict d =>
      match py_int int_other (stated_tier d) with
      | Ok t' => (t' =? t) && Main.eligible_fields d
      | Raise _ => false
      end
  | _ => false
  end.

(** The entry of a tier file gives a ship to fetch. *)
Definition selected (info : pyval) : bool :=
  match info with
  | PDict i => truthy (get i "name") && truthy (get i "ship_id")
  | _ => false
  end.

Definition name_of (info : pyval) : pyval :=
  match info with PDict i => get i "name" | _ => PNone end.

Definition sid_of (info : pyval) : pyval :=
  match info with PDict i => get i "ship_id" | _ => PNone end.

(** The id of the last selected entry of [infos] whose name is the key
    [k]; [start] if there is none. *)
Definition last_ship (infos : list pyval) (k : pyval) (start : option pyval)
  : option pyval :=
  fold_left (fun acc info =>
               if selected info && key_eqb (name_of info) k
               then Some (sid_of info) else acc)
            infos start.

(** The ten tier files, in order. *)
Definition tier_paths : list string :=
  map tier_path [1; 2; 3; 4; 5; 6; 7; 8; 9; 10].

(** [os.path.exists(p)] in the world [w]. *)
Definition present (w : world) (p : string) : bool :=
  bool_decide (is_Some (files w !! p)).

(** A collectible ship that is researchable and has a price. *)
Definition collectible_ship : dict :=
  [ ("is_collectible", PBool true); ("is_researchable", PBool true);
    ("price", PDict [("credit", PInt 5)]) ]%string.

(** A ship that is given away: not researchable, price 0. *)
Definition free_ship : dict :=
  [ ("tier", PInt 5); ("price", PDict [("credit", PInt 0); ("gold", PInt 0)]) ]%string.

(** A ship whose price is a number, with a price table beside it. *)
Definition flat_price_ship : dict :=
  [ ("price", PInt 5000); ("prices", PDict [("credit", PInt 5000)]) ]%string.

Definition image_url : string := "http://img.example/fletcher.png".

(** A remote that serves every image in one chunk. *)
Definition image_remote : list request -> request -> reply :=
  fun _ _ => Reply {| resp_ok := true; resp_json := None;
                      resp_chunks := ["PNG"%string]; resp_broken := false |}.


(** A catalog of one page, without page count, whose ship has no id. *)
Definition bare_page : dict :=
  [ ("status", PStr "ok");
    ("data", PDict [("100", PDict [("name", PStr "Fletcher")])]) ]%string.

Definition bare_remote : list request -> request -> reply :=
  fun _ _ => Reply (json_response (PDict bare_page)).

(** A catalog in which page [n] always reports [n + 1] pages. *)
Definition endless_remote : list request -> request -> reply :=
  fun _ req =>
    match req with
    | ReqShipsPage n => Reply (json_response (page_json [] (n + 1)))
    | _ => NoReply
    end.

(** A remote that answers every detail request with status "ok". *)
Definition ok_detail : dict :=
  [ ("status", PStr "ok"); ("data", PDict [("100", PDict [("name", PStr "Fletcher")])]) ]%string.

Definition detail_remote : list request -> request -> reply :=
  fun _ _ => Reply (json_response (PDict ok_detail)).

Definition no_repr : pyval -> string := fun _ => "?"%string.

(** An [int()] that refuses every text that is not [plain]. *)
Definition no_int : string -> option Z := fun _ => None.

(** The world after the partition of the Fletcher cache. *)
Definition fletcher_world : world :=
  snd (Main.build_tiers_and_images silent_remote no_repr no_int
         [("100"%string, PDict fletcher)] true empty_world).

(** A tier file with a repeated name and an entry that is not a record. *)
Definition sample_tier_file : list pyval :=
  [ PDict fletcher_summary; PInt 3;
    PDict [("name", PStr "Fletcher"); ("ship_id", PInt 7)]%string;
    PDict [("name", PStr "Atago")]%string ].

Definition sample_state : GetMain.state :=
  {| GetMain.base := {| files := {[ tier_path 5 := FJson (PList sample_tier_file) ]};
                        trace := [] |};
     GetMain.notices := [] |}.

(** * Properties *)

(** ** Sanity checks of the modelled builtins *)

Example int_of_string_ex (int_other : string -> option Z) :
  map (int_of_string int_other)
      [ "5"; " 10 "; "-3"; "1_0"; "abc"; ""; "5_"; "+ 5"; "007"; "1__0"; "5.0";
        "_5"; "+"; "0x5"; "-0"; "+-5" ]%string
  = [ Some 5; Some 10; Some (-3); Some 10; None; None; None; None; Some 7; None; None;
      None; None; None; Some 0; None ].
Proof. reflexivity. Qed.

(** Tab, line feed, vertical tab, form feed and carriage return are blanks
    for [int()]; the separators 28..31 and the NUL character are not.  The
    fullwidth five is not ASCII: its conversion is the parameter's. *)
Example int_of_string_blanks_ex (int_other : string -> option Z) :
  map (fun n => int_of_string int_other (String (ascii_of_nat n) "5"))
      [9; 10; 11; 12; 13; 32; 28; 29; 30; 31; 0; 127]%nat
  = [ Some 5; Some 5; Some 5; Some 5; Some 5; Some 5; None; None; None; None; None; None ]
  /\ int_of_string int_other ("5" +:+ String (ascii_of_nat 0) "") = None
  /\ int_of_string int_other "５" = int_other "５"%string.
Proof. repeat split. Qed.

Example splitext_ex :
  (splitext_ext "http://x.y/a/b.png", splitext_ext "http://x.y/a/b", splitext_ext "a/.bashrc",
   splitext_ext "a/..x.tar.gz", splitext_ext "a.b/c", os_path_join "images" "ship_1.jpg",
   os_path_join "a/" "b", os_path_join "a" "/b", str_of_int 100, str_of_int (-5), str_of_int 0,
   before_char "?" "a.png?x=1")
  = (".png", "", "", ".gz", "", "images/ship_1.jpg", "a/b", "/b", "100", "-5", "0", "a.png")%string.
Proof. vm_compute. reflexivity. Qed.

Example strings_ex :
  (is_substring "ship_id" "old ship_id list", is_substring "ship_id" "ship",
   is_substring "ship_id" "", is_http_str (PStr "https://x/a.png"),
   is_http_str (PStr "ftp://x"), is_http_str (PInt 1))
  = (true, false, false, true, false, false).
Proof. reflexivity. Qed.

(** The test of line 244 on a few caches: a string or a list is searched, a
    number raises [TypeError], and [any] stops at the first hit. *)
Example cache_rejected_ex :
  map Main.cache_rejected
      [ PList []; PDict [];
        PDict [("a", PStr "ship_id=1")]%string;
        PDict [("a", PList [PStr "ship_id"])]%string;
        PDict [("a", PInt 5)]%string;
        PDict [("a", PDict [("ship_id", PInt 1)]); ("b", PInt 5)]%string ]
  = [Ok true; Ok true; Ok false; Ok false; Raise TypeError; Ok false].
Proof. reflexivity. Qed.

(** ** Dictionaries *)

Lemma dict_get_pop_eq (d : dict) (k : string) :
  dict_get (dict_pop d k) k = None.
Proof.
  induction d as [|[k' v] r IH]; [reflexivity|].
  unfold dict_pop in *. cbn [List.filter fst].
  destruct (String.eqb k' k) eqn:E; cbn [negb]; [exact IH|].
  cbn [dict_get]. rewrite E. exact IH.
Qed.

Lemma dict_get_pop_ne (d : dict) (k k' : string) :
  k <> k' -> dict_get (dict_pop d k) k' = dict_get d k'.
Proof.
  intros Hne. induction d as [|[k0 v] r IH]; [reflexivity|].
  unfold dict_pop in *. cbn [List.filter fst].
  destruct (String.eqb k0 k) eqn:E; cbn [negb dict_get].
  - apply String.eqb_eq in E. subst k0.
    destruct (String.eqb k k') eqn:E'; [apply String.eqb_eq in E'; contradiction|].
    exact IH.
  - destruct (String.eqb k0 k'); [reflexivity | exact IH].
Qed.

Lemma get_pop_eq (d : dict) (k : string) : get (dict_pop d k) k = PNone.
Proof. unfold get. now rewrite dict_get_pop_eq. Qed.

Lemma get_pop_ne (d : dict) (k k' : string) :
  k <> k' -> get (dict_pop d k) k' = get d k'.
Proof. intros H. unfold get. now rewrite dict_get_pop_ne. Qed.

Lemma dict_get_Some_truthy (d : dict) (k : string) (v : pyval) :
  dict_get d k = Some v -> truthy (PDict d) = true.
Proof. destruct d; [discriminate | reflexivity]. Qed.

(** ** Eligibility classifier *)

(** The decision on a dict does not distinguish an empty dict from a
    non-empty one without the relevant fields. *)
Lemma is_buyable_dict (d : dict) :
  Main.is_buyable_or_researchable (PDict d) = Ok (Main.eligible_fields d).
Proof. destruct d; reflexivity. Qed.

(** C1: a record whose premium flag is [True] is never eligible, whatever
    its other fields (a positive price included): the premium check comes
    before every other one. *)
Theorem premium_never_eligible (d : dict) :
  dict_get d "is_premium" = Some (PBool true) ->
  Main.is_buyable_or_researchable (PDict d) = Ok false.
Proof.
  intros H. rewrite is_buyable_dict. unfold Main.eligible_fields, get.
  now rewrite H.
Qed.

Lemma premium_never_eligible_witness :
  dict_get premium_with_price "is_premium" = Some (PBool true) /\
  Main.has_price premium_with_price = true /\
  Main.is_buyable_or_researchable (PDict premium_with_price) = Ok false.
Proof.
  split; [reflexivity|]. split; [reflexivity|].
  apply (premium_never_eligible premium_with_price). reflexivity.
Defined.

Ltac get_other_keys k :=
  repeat (rewrite (get_pop_ne _ k) by discriminate).

Lemma eligible_fields_pop_premium (d : dict) :
  is_True (get d "is_premium") = false ->
  Main.eligible_fields (dict_pop d "is_premium") = Main.eligible_fields d.
Proof.
  intros H. unfold Main.eligible_fields, Main.has_price.
  rewrite get_pop_eq, H. get_other_keys "is_premium"%string. reflexivity.
Qed.

Lemma not_bool_not_True (v : pyval) : is_bool v = false -> is_True v = false.
Proof. destruct v as [| [] | | | | |]; auto. Qed.

(** C9: the premium and researchable flags are compared with [is True].
    A truthy value that is not a boolean in [is_premium] is ignored (the
    record is classified as if the field were absent), and such a value in
    [is_researchable] does not make the record eligible: the answer is then
    the one of the premium, collectible/special and price checks. *)
Theorem flags_compared_by_identity (d : dict) (v : pyval) :
  truthy v = true -> is_bool v = false ->
  (dict_get d "is_premium" = Some v ->
   Main.is_buyable_or_researchable (PDict d)
   = Main.is_buyable_or_researchable (PDict (dict_pop d "is_premium")))
  /\
  (dict_get d "is_researchable" = Some v ->
   Main.is_buyable_or_researchable (PDict d)
   = Ok (if is_True (get d "is_premium") then false
         else if truthy (get d "is_collectible") || truthy (get d "is_special")
              then false
              else Main.has_price d)).
Proof.
  intros _ Hb. apply not_bool_not_True in Hb. split; intros Hd.
  - rewrite !is_buyable_dict, eligible_fields_pop_premium; [reflexivity|].
    unfold get. now rewrite Hd.
  - rewrite is_buyable_dict. unfold Main.eligible_fields.
    replace (get d "is_researchable") with v by (unfold get; now rewrite Hd).
    now rewrite Hb.
Qed.

Lemma flags_compared_by_identity_witness :
  let d := [("is_premium", PInt 1); ("is_researchable", PInt 1);
            ("price", PDict [("credit", PInt 1000)])]%string in
  Main.is_buyable_or_researchable (PDict d)
  = Main.is_buyable_or_researchable (PDict (dict_pop d "is_premium"))
  /\ Main.is_buyable_or_researchable (PDict d) = Ok true.
Proof.
  intros d.
  destruct (flags_compared_by_identity d (PInt 1) eq_refl eq_refl) as [H1 H2].
  split; [apply H1; reflexivity | rewrite H2; reflexivity].
Defined.

(** Integer [1] in [is_premium] does not exclude a researchable ship, and
    integer [1] in [is_researchable] alone does not include one. *)
Example truthy_flags_ex :
  Main.is_buyable_or_researchable
    (PDict [("is_premium", PInt 1); ("is_researchable", PBool true)]%string) = Ok true
  /\ Main.is_buyable_or_researchable
       (PDict [("is_researchable", PInt 1)]%string) = Ok false
  /\ Main.is_buyable_or_researchable
       (PDict [("is_researchable", PBool true)]%string) = Ok true.
Proof. repeat split. Qed.

(** ** Running the monad *)

Lemma bind_run {A B} (m : M A) (k : A -> M B) (w : world) (a : A) (w' : world) :
  m w = (Done a, w') -> bind m k w = k a w'.
Proof. intros H. unfold bind. now rewrite H. Qed.

Lemma bind_exc {A B} (m : M A) (k : A -> M B) (w : world) (e : exn) (w' : world) :
  m w = (Exc e, w') -> bind m k w = (Exc e, w').
Proof. intros H. unfold bind. now rewrite H. Qed.

(** ** Asset mirror *)

(** C10: the url is tested before the output path: with a falsy url
    ([None], the empty string, ...) [download_image] returns [False] and
    does nothing, whether or not the output path exists. *)
Theorem download_image_falsy_url
    (remote : list request -> request -> reply)
    (url : pyval) (out_path : string) (w : world) :
  truthy url = false ->
  Main.download_image remote url out_path w = (Done false, w).
Proof. intros H. unfold Main.download_image. now rewrite H. Qed.

Lemma download_image_falsy_url_witness :
  is_Some (files world_with_image !! "images/ship_1.png"%string) /\
  Main.download_image silent_remote (PStr "") "images/ship_1.png" world_with_image
  = (Done false, world_with_image) /\
  Main.download_image silent_remote PNone "images/ship_1.png" world_with_image
  = (Done false, world_with_image).
Proof.
  split; [eexists; reflexivity|].
  split; apply download_image_falsy_url; reflexivity.
Defined.

(** C6, as stated, fails for the empty url: the output path exists and the
    call still returns [False]. *)
Lemma download_image_existing_path_empty_url :
  is_Some (files world_with_image !! "images/ship_1.png"%string) /\
  Main.download_image silent_remote (PStr "") "images/ship_1.png" world_with_image
  = (Done false, world_with_image).
Proof. split; [eexists; reflexivity | reflexivity]. Qed.

Lemma path_exists_Some (p : string) (w : world) :
  is_Some (files w !! p) -> path_exists p w = (Done true, w).
Proof.
  intros H. unfold path_exists. now rewrite bool_decide_eq_true_2.
Qed.

Lemma path_exists_None (p : string) (w : world) :
  files w !! p = None -> path_exists p w = (Done false, w).
Proof.
  intros H. unfold path_exists. rewrite bool_decide_eq_false_2; [reflexivity|].
  rewrite H. intros [? ?]. discriminate.
Qed.

(** C6, amended: for a truthy url, when the output path exists
    [download_image] returns [True] and leaves the world as it was: no
    request, no write.  Two calls in a row return [True] twice and still
    leave the world unchanged. *)
Theorem download_image_existing_path
    (remote : list request -> request -> reply)
    (url : pyval) (out_path : string) (w : world) :
  truthy url = true ->
  is_Some (files w !! out_path) ->
  Main.download_image remote url out_path w = (Done true, w)
  /\ (let* first := Main.download_image remote url out_path in
      let* second := Main.download_image remote url out_path in
      ret (first, second)) w = (Done (true, true), w).
Proof.
  intros Hu Hp.
  assert (H1 : Main.download_image remote url out_path w = (Done true, w)).
  { unfold Main.download_image. rewrite Hu. cbn [negb].
    unfold bind. now rewrite path_exists_Some. }
  split; [exact H1|].
  unfold bind at 1. rewrite H1. unfold bind. rewrite H1. reflexivity.
Qed.

Lemma download_image_existing_path_witness :
  Main.download_image silent_remote (PStr "http://x/ship.png") "images/ship_1.png"
    world_with_image = (Done true, world_with_image).
Proof.
  apply (download_image_existing_path silent_remote (PStr "http://x/ship.png")
           "images/ship_1.png" world_with_image eq_refl).
  eexists; reflexivity.
Defined.

(** ** Tier partitioner *)

(** C8: partitioning the cache [{"100": {tier: 5, is_researchable: true,
    name: "Fletcher"}}] returns ten buckets, all empty except tier 5, which
    holds exactly the summary [{ship_id: "100", name: "Fletcher", tier: 5,
    type: None}]: the identifier is the cache key, and there is no image
    field.  The ten tier files are written, and no request is made. *)
Theorem fletcher_partition
    (remote : list request -> request -> reply) (py_repr : pyval -> string)
    (int_other : string -> option Z)
    (w : world) :
  let tiers := <[5 := [PDict fletcher_summary]]> Main.empty_tiers in
  Main.build_tiers_and_images remote py_repr int_other [("100"%string, PDict fletcher)] true w
  = (Done tiers,
     {| files :=
          fold_left
            (fun fs t =>
               <[tier_path t :=
                   FJson (PList (if t =? 5 then [PDict fletcher_summary] else []))]> fs)
            [1; 2; 3; 4; 5; 6; 7; 8; 9; 10] (files w);
        trace :=
          map (fun t => EvPrint (MsgTierSaved (tier_path t)
                                   (if t =? 5 then 1%nat else 0%nat)))
              [10; 9; 8; 7; 6; 5; 4; 3; 2; 1]
          ++ [EvSleep 200; EvPrint MsgClassifying] ++ trace w |})
  /\ tiers !! 5 = Some [PDict fletcher_summary]
  /\ (forall t, t <> 5 -> tiers !! t = Main.empty_tiers !! t)
  /\ has_key fletcher_summary "image_url" = false
  /\ has_key fletcher_summary "image" = false.
Proof.
  intros tiers. split; [reflexivity|]. split; [reflexivity|].
  split; [|split; reflexivity].
  intros t Ht. subst tiers. now rewrite lookup_insert_ne.
Qed.

Lemma tier_rejected_outside (z : Z) :
  ~ (1 <= z <= 10) -> Main.tier_rejected (Some z) = true.
Proof.
  intros Hz. unfold Main.tier_rejected.
  destruct (1 <=? z) eqn:E1; destruct (z <=? 10) eqn:E2;
    cbn; rewrite ?orb_true_r; try reflexivity.
  apply Z.leb_le in E1, E2. lia.
Qed.

Lemma tier_accepted_inside (z : Z) :
  1 <= z <= 10 -> Main.tier_rejected (Some z) = false.
Proof.
  intros Hz. unfold Main.tier_rejected.
  replace (1 <=? z) with true by (symmetry; apply Z.leb_le; lia).
  replace (z <=? 10) with true by (symmetry; apply Z.leb_le; lia).
  replace (z =? 0) with false by (symmetry; apply Z.eqb_neq; lia).
  reflexivity.
Qed.

Lemma out_of_range_rejected (int_other : string -> option Z) (d : dict) :
  (forall z, py_int int_other (Main.tier_field d) = Ok z -> ~ (1 <= z <= 10)) ->
  Main.tier_rejected (Main.resolve_tier int_other d) = true.
Proof.
  intros H. unfold Main.resolve_tier.
  destruct (Main.tier_field d) eqn:Et; try reflexivity;
    match goal with
    | |- context [py_int int_other ?v] =>
        destruct (py_int int_other v) as [?z|?e] eqn:E;
        [apply tier_rejected_outside, H; reflexivity | reflexivity]
    end.
Qed.

(** Lines 185-188 read the tier as the specification words it. *)
Lemma tier_field_stated (d : dict) : Main.tier_field d = stated_tier d.
Proof.
  unfold Main.tier_field, stated_tier, get.
  destruct (dict_get d "tier") as [[]|]; reflexivity.
Qed.

Lemma classify_ship_rejected
    (remote : list request -> request -> reply) (py_repr : pyval -> string)
    (int_other : string -> option Z)
    (dl : bool) (sid : string) (d : dict) (tiers : gmap Z (list pyval)) (w : world) :
  Main.tier_rejected (Main.resolve_tier int_other d) = true ->
  Main.classify_ship remote py_repr int_other dl sid (PDict d) tiers w = (Done tiers, w).
Proof. intros H. unfold Main.classify_ship. now rewrite H. Qed.

Lemma classify_all_skip
    (remote : list request -> request -> reply) (py_repr : pyval -> string)
    (int_other : string -> option Z)
    (dl : bool) (sid : string) (s : pyval) (c1 c2 : dict) :
  (forall tiers w,
      Main.classify_ship remote py_repr int_other dl sid s tiers w = (Done tiers, w)) ->
  forall tiers w,
    Main.classify_all remote py_repr int_other dl (c1 ++ (sid, s) :: c2) tiers w
    = Main.classify_all remote py_repr int_other dl (c1 ++ c2) tiers w.
Proof.
  intros Hskip. induction c1 as [|[k v] c1 IH]; intros tiers w.
  - cbn [app Main.classify_all]. unfold bind. now rewrite Hskip.
  - cbn [app Main.classify_all]. unfold bind.
    destruct (Main.classify_ship remote py_repr int_other dl k v tiers w) as [[t| |] w'];
      [apply IH | reflexivity | reflexivity].
Qed.

(** C5: a record whose tier value (the ["tier"] field, else the ["level"]
    field) cannot be converted by [int()] or converts to an integer outside
    1..10 is skipped by the loop before its eligibility is looked at: the
    iteration changes neither the buckets nor the world, and the whole
    partition is the one of the cache without that record.  [int()] is
    Python's on every value: computed on the plain texts, [int_other] on
    the others. *)
Theorem bad_tier_excluded
    (remote : list request -> request -> reply) (py_repr : pyval -> string)
    (int_other : string -> option Z)
    (dl : bool) (sid : string) (d : dict) :
  (forall z, py_int int_other (stated_tier d) = Ok z -> ~ (1 <= z <= 10)) ->
  (forall tiers w,
      Main.classify_ship remote py_repr int_other dl sid (PDict d) tiers w = (Done tiers, w))
  /\ (forall c1 c2 w,
      Main.build_tiers_and_images remote py_repr int_other (c1 ++ (sid, PDict d) :: c2) dl w
      = Main.build_tiers_and_images remote py_repr int_other (c1 ++ c2) dl w).
Proof.
  intros H. rewrite <- tier_field_stated in H. apply out_of_range_rejected in H.
  assert (Hskip : forall tiers w,
             Main.classify_ship remote py_repr int_other dl sid (PDict d) tiers w
             = (Done tiers, w))
    by (intros; now apply classify_ship_rejected).
  split; [exact Hskip|].
  intros c1 c2 w. unfold Main.build_tiers_and_images, bind.
  destruct (print MsgClassifying w) as [[[]| |] w1]; try reflexivity.
  now rewrite (classify_all_skip remote py_repr int_other dl sid (PDict d) c1 c2 Hskip).
Qed.

(** A researchable ship with the tier ["abc"], after a valid one; one of
    tier 11; and one whose tier is ["5"] after the separator 28, which
    [int()] refuses. *)
Lemma bad_tier_excluded_witness :
  let abc := [("tier", PStr "abc"); ("is_researchable", PBool true)]%string in
  let eleven := [("level", PInt 11); ("is_researchable", PBool true)]%string in
  let sep := [("tier", PStr (String (ascii_of_nat 28) "5"));
              ("is_researchable", PBool true)]%string in
  Main.is_buyable_or_researchable (PDict abc) = Ok true
  /\ Main.build_tiers_and_images silent_remote (fun _ => "?"%string) (fun _ => None)
       ([("100"%string, PDict fletcher)] ++ [("7"%string, PDict abc)]) true empty_world
     = Main.build_tiers_and_images silent_remote (fun _ => "?"%string) (fun _ => None)
         ([("100"%string, PDict fletcher)] ++ []) true empty_world
  /\ Main.build_tiers_and_images silent_remote (fun _ => "?"%string) (fun _ => None)
       ([] ++ [("9"%string, PDict eleven)]) true empty_world
     = Main.build_tiers_and_images silent_remote (fun _ => "?"%string) (fun _ => None)
         ([] ++ []) true empty_world
  /\ Main.build_tiers_and_images silent_remote (fun _ => "?"%string) (fun _ => Some 5)
       ([] ++ [("8"%string, PDict sep)]) true empty_world
     = Main.build_tiers_and_images silent_remote (fun _ => "?"%string) (fun _ => Some 5)
         ([] ++ []) true empty_world.
Proof.
  intros abc eleven sep. split; [reflexivity|]. split; [|split].
  - apply (bad_tier_excluded silent_remote (fun _ => "?"%string) (fun _ => None)
             true "7" abc).
    intros z Hz. discriminate Hz.
  - apply (bad_tier_excluded silent_remote (fun _ => "?"%string) (fun _ => None)
             true "9" eleven).
    intros z [= <-]. lia.
  - apply (bad_tier_excluded silent_remote (fun _ => "?"%string) (fun _ => Some 5)
             true "8" sep).
    intros z Hz. discriminate Hz.
Defined.

(** Tier 11, tier 0, a tier given as a list, and no tier at all are
    rejected; ["7"], [7.0]-like floats and [True] are tiers. *)
Example resolve_tier_ex (int_other : string -> option Z) :
  map (fun v => Main.tier_rejected (Main.resolve_tier int_other [("tier"%string, v)]))
      [PInt 11; PInt 0; PInt (-1); PStr "abc"; PStr "11"; PList []; PNone;
       PStr "7"; PBool true; PFloat (S754_finite false 7 0); PInt 10]
  = [true; true; true; true; true; true; true; false; false; false; false].
Proof. reflexivity. Qed.

(** A tier written with the fullwidth five is not a plain text: the record
    is filed where [int()] of the running Python says; tier 5 when it reads
    the digit, nowhere when it refuses it. *)
Example unicode_tier_ex :
  Main.resolve_tier (fun _ => Some 5) [("tier"%string, PStr "５")] = Some 5
  /\ Main.resolve_tier (fun _ => None) [("tier"%string, PStr "５")] = None
  /\ forall int_other,
       Main.tier_rejected
         (Main.resolve_tier int_other [("tier"%string, PStr (String (ascii_of_nat 28) "5"))])
       = true.
Proof. repeat split. Qed.

Example level_fallback_ex (int_other : string -> option Z) :
  Main.resolve_tier int_other [("level"%string, PInt 3)] = Some 3
  /\ Main.resolve_tier int_other [("tier"%string, PNone); ("level"%string, PInt 11)] = Some 11
  /\ Main.resolve_tier int_other [("tier"%string, PStr "abc"); ("level"%string, PInt 3)] = None.
Proof. repeat split. Qed.

(** *** A failed image download *)

(** C3, as stated, fails: when the download fails the summary still carries
    its [image_url]; only [image] is removed. *)
Lemma failed_download_keeps_image_url :
  fst (Main.download_image silent_remote (PStr "http://img.example/fletcher.png")
         "images/ship_100.png" empty_world) = Done false
  /\ fst (Main.build_tiers_and_images silent_remote (fun _ => "?"%string) (fun _ => None)
            [("100"%string, PDict with_image)] true empty_world)
     = Done (<[5 := [PDict [ ("ship_id", PStr "100"); ("name", PStr "Fletcher");
                             ("tier", PInt 5); ("type", PNone);
                             ("image_url", PStr "http://img.example/fletcher.png")
                           ]%string]]> Main.empty_tiers).
Proof. split; reflexivity. Qed.

(** C3, amended: when a record passes the tier and eligibility checks, an
    image url is found, the image file is not there yet and the download
    fails, the iteration removes the [image] field (the local file name) and
    keeps [image_url]; the summary, with its four other fields as built, is
    appended to the bucket of its tier, and the loop goes on. *)
Theorem failed_download_drops_image_only
    (remote : list request -> request -> reply) (py_repr : pyval -> string)
    (int_other : string -> option Z)
    (sid : string) (d : dict) (t : Z) (u : string)
    (tiers : gmap Z (list pyval)) (l : list pyval) (w w' : world) :
  Main.resolve_tier int_other d = Some t -> 1 <= t <= 10 ->
  Main.is_buyable_or_researchable (PDict d) = Ok true ->
  Main.guess_image_url_from_shipdata (PDict d) = Ok (PStr u) ->
  truthy (PStr u) = true ->
  tiers !! t = Some l ->
  files w !! os_path_join Main.IMAGES_DIR (image_name py_repr sid d u) = None ->
  Main.download_image remote (PStr u)
    (os_path_join Main.IMAGES_DIR (image_name py_repr sid d u)) w = (Done false, w') ->
  let summary := Main.ship_entry_of sid d t ++ [("image_url"%string, PStr u)] in
  Main.classify_ship remote py_repr int_other true sid (PDict d) tiers w
  = (Done (<[t := l ++ [PDict summary]]> tiers),
     {| files := files w'; trace := EvSleep Main.REQUEST_DELAY :: trace w' |})
  /\ has_key summary "image" = false
  /\ dict_get summary "image_url" = Some (PStr u).
Proof.
  intros Ht Hrange Hel Hurl Hu Hl Hfile Hdl summary.
  split; [|split; reflexivity].
  assert (Hatt : Main.attach_image remote py_repr true (PDict d)
                   (Main.ship_entry_of sid d t) w = (Done summary, w')).
  { unfold Main.attach_image.
    rewrite (bind_run _ _ w (PStr u) w) by (now rewrite Hurl).
    rewrite Hu.
    rewrite (bind_run _ _ w false w) by (apply path_exists_None, Hfile).
    cbn [negb].
    rewrite (bind_run _ _ w false w') by exact Hdl.
    reflexivity. }
  unfold Main.classify_ship. rewrite Ht.
  rewrite (tier_accepted_inside t Hrange).
  rewrite (bind_run _ _ w true w) by (now rewrite Hel).
  cbn [negb].
  rewrite (bind_run _ _ w summary w') by exact Hatt.
  unfold Main.tiers_append. rewrite Hl. reflexivity.
Qed.

Lemma failed_download_drops_image_only_witness :
  Main.classify_ship silent_remote (fun _ => "?"%string) (fun _ => None) true "100" (PDict with_image)
    Main.empty_tiers empty_world
  = (Done (<[5 := [] ++ [PDict (Main.ship_entry_of "100" with_image 5
                                ++ [("image_url"%string,
                                     PStr "http://img.example/fletcher.png")])]]>
             Main.empty_tiers),
     {| files := ∅;
        trace := [EvSleep 200;
                  EvPrint (MsgImageFailed (PStr "http://img.example/fletcher.png")
                             ConnectionError);
                  EvRequest (ReqImage "http://img.example/fletcher.png")] |}).
Proof.
  apply (failed_download_drops_image_only silent_remote (fun _ => "?"%string) (fun _ => None)
           "100" with_image 5 "http://img.example/fletcher.png"
           Main.empty_tiers [] empty_world
           {| files := ∅;
              trace := [EvPrint (MsgImageFailed (PStr "http://img.example/fletcher.png")
                                   ConnectionError);
                        EvRequest (ReqImage "http://img.example/fletcher.png")] |});
    try reflexivity; lia.
Defined.

(** ** Cache rebuild *)

Lemma dict_get_set (d : dict) (k k' : string) (v : pyval) :
  dict_get (dict_set d k v) k'
  = if String.eqb k k' then Some v else dict_get d k'.
Proof.
  induction d as [|[k0 v0] r IH]; cbn [dict_set dict_get].
  - reflexivity.
  - destruct (String.eqb k0 k) eqn:E0; cbn [dict_get].
    + apply String.eqb_eq in E0. subst k0.
      destruct (String.eqb k k'); reflexivity.
    + destruct (String.eqb k0 k') eqn:E1; [|exact IH].
      apply String.eqb_eq in E1. subst k0.
      destruct (String.eqb k k') eqn:E2; [|reflexivity].
      apply String.eqb_eq in E2. subst k. rewrite String.eqb_refl in E0.
      discriminate.
Qed.

Lemma dict_get_absent (d : dict) (k : string) :
  ~ In k (map fst d) -> dict_get d k = None.
Proof.
  induction d as [|[k0 v0] r IH]; intros H; [reflexivity|].
  cbn [dict_get]. destruct (String.eqb k0 k) eqn:E.
  - apply String.eqb_eq in E. subst. exfalso. apply H. now left.
  - apply IH. intros Hin. apply H. now right.
Qed.

(** Merging a well-formed dict: its bindings win, the others stay. *)
Lemma dict_get_update (src d : dict) (k : string) :
  wf_dict src ->
  dict_get (dict_update d src) k
  = match dict_get src k with Some v => Some v | None => dict_get d k end.
Proof.
  unfold wf_dict, dict_update. revert d.
  induction src as [|[k0 v0] r IH]; intros d Hwf; [reflexivity|].
  cbn [map fst] in Hwf. apply List.NoDup_cons_iff in Hwf as [Hnotin Hwf].
  cbn [fold_left fst snd dict_get]. rewrite IH by exact Hwf.
  rewrite dict_get_set. destruct (String.eqb k0 k) eqn:E.
  - apply String.eqb_eq in E. subst k0. now rewrite dict_get_absent.
  - reflexivity.
Qed.

Lemma dict_get_merged (pages : list dict) (cache : dict) (k : string) :
  Forall wf_dict pages ->
  dict_get (merged cache pages) k = lookup_pages pages k (dict_get cache k).
Proof.
  unfold merged, lookup_pages. revert cache.
  induction pages as [|p r IH]; intros cache Hwf; [reflexivity|].
  apply Forall_cons_iff in Hwf as [Hp Hr].
  cbn [fold_left]. rewrite IH by exact Hr. now rewrite dict_get_update.
Qed.

Lemma requests_of_request (r : request) (t : list event) :
  requests_of (EvRequest r :: t) = r :: requests_of t.
Proof. reflexivity. Qed.

Lemma requests_of_print (m : message) (t : list event) :
  requests_of (EvPrint m :: t) = requests_of t.
Proof. reflexivity. Qed.

Lemma requests_of_sleep (ms : Z) (t : list event) :
  requests_of (EvSleep ms :: t) = requests_of t.
Proof. reflexivity. Qed.

Lemma requests_of_fetched (pages : list (dict * pyval)) (page : Z) (cache : dict)
    (t : list event) :
  requests_of (fetched page cache pages t)
  = page_requests page (length pages) (requests_of t).
Proof.
  revert page cache t.
  induction pages as [|[ships total] rest IH]; intros page cache t;
    [reflexivity|].
  cbn [fetched length page_requests]. now rewrite IH.
Qed.

Section Rebuild.

Variable remote : list request -> request -> reply.
Variable py_repr : pyval -> string.
Variable int_other : string -> option Z.

(** One turn of the loop on a well-formed listing. *)
Lemma update_cache_loop_step (fuel : nat) (page : Z) (cache : dict) (w : world)
    (j : pyval) (ships : dict) (total : pyval) (last : bool) :
  replies_json remote (requests_of (trace w)) (ReqShipsPage page) j ->
  page_listing j ships total ->
  int_ge page total = Ok last ->
  let cache' := dict_update cache ships in
  let t1 := EvPrint (MsgFetchedPage page total (length cache'))
            :: EvRequest (ReqShipsPage page) :: trace w in
  Main.update_cache_loop remote py_repr (S fuel) page cache w
  = if last then (Done cache', {| files := files w; trace := t1 |})
    else Main.update_cache_loop remote py_repr fuel (page + 1) cache'
           {| files := files w; trace := EvSleep Main.REQUEST_DELAY :: t1 |}.
Proof.
  intros (r & Hr & Hok & Hj) (d & meta & -> & Hst & Hdata & Hmeta & Htot) Hlast.
  cbn zeta. cbn [Main.update_cache_loop].
  assert (Hpage : Main.get_ships_page remote page w
                  = (Done (PDict d),
                     {| files := files w;
                        trace := EvRequest (ReqShipsPage page) :: trace w |})).
  { unfold Main.get_ships_page, bind, requests_get, raise_for_status, json.
    rewrite Hr, Hok, Hj. reflexivity. }
  rewrite (bind_run _ _ _ _ _ Hpage).
  cbn [attr_get_or lift]. unfold bind at 1. cbn [ret].
  rewrite Hst. cbn [eq_str String.eqb Ascii.eqb Bool.eqb negb].
  unfold bind at 1. cbn [ret]. rewrite Hdata. cbn [items lift].
  unfold bind at 1. cbn [ret].
  unfold bind at 1. cbn [ret]. rewrite Hmeta. cbn [attr_get_or lift].
  unfold bind at 1. cbn [ret]. rewrite Htot.
  unfold bind at 1. cbn [print emit files trace].
  rewrite Hlast. cbn [lift]. unfold bind at 1. cbn [ret].
  destruct last; reflexivity.
Qed.

(** The loop crosses the pages that are not the last one. *)
Lemma update_cache_loop_continues (pages : list (dict * pyval)) :
  forall (fuel : nat) (page : Z) (cache : dict) (w : world),
    continues remote (requests_of (trace w)) page pages ->
    Main.update_cache_loop remote py_repr (length pages + fuel) page cache w
    = Main.update_cache_loop remote py_repr fuel
        (page + Z.of_nat (length pages)) (merged cache (map fst pages))
        {| files := files w; trace := fetched page cache pages (trace w) |}.
Proof.
  induction pages as [|[ships total] rest IH]; intros fuel page cache w H.
  - cbn [length Nat.add map merged fold_left fetched]. rewrite Z.add_0_r.
    now destruct w.
  - destruct H as ((j & Hj & Hl) & Hge & Hrest).
    cbn [length Nat.add].
    rewrite (update_cache_loop_step _ page cache w j ships total false Hj Hl Hge).
    cbn zeta. rewrite IH by exact Hrest.
    cbn [files trace map fst merged fold_left fetched length].
    replace (page + Z.of_nat (S (length rest)))
      with (page + 1 + Z.of_nat (length rest)) by lia.
    reflexivity.
Qed.

Lemma update_cache_loop_bad_status (fuel : nat) (page : Z) (cache : dict)
    (w : world) (d : dict) :
  replies_json remote (requests_of (trace w)) (ReqShipsPage page) (PDict d) ->
  eq_str (get d "status") "ok" = false ->
  Main.update_cache_loop remote py_repr (S fuel) page cache w
  = (Exc (RuntimeError ("API error when fetching ships list: "
                        +:+ py_str py_repr (PDict d))),
     {| files := files w; trace := EvRequest (ReqShipsPage page) :: trace w |}).
Proof.
  intros (r & Hr & Hok & Hj) Hst. cbn [Main.update_cache_loop].
  assert (Hpage : Main.get_ships_page remote page w
                  = (Done (PDict d),
                     {| files := files w;
                        trace := EvRequest (ReqShipsPage page) :: trace w |})).
  { unfold Main.get_ships_page, bind, requests_get, raise_for_status, json.
    rewrite Hr, Hok, Hj. reflexivity. }
  rewrite (bind_run _ _ _ _ _ Hpage).
  cbn [attr_get_or lift]. unfold bind at 1. cbn [ret].
  change (get_or d "status" PNone) with (get d "status").
  rewrite Hst. reflexivity.
Qed.

End Rebuild.

Lemma page_requests_last (n : nat) (page : Z) (h : list request) :
  page_requests page (S n) h
  = ReqShipsPage (page + Z.of_nat n) :: page_requests page n h.
Proof.
  revert page h. induction n as [|n IH]; intros page h.
  - cbn [page_requests]. now rewrite Z.add_0_r.
  - change (page_requests page (S (S n)) h)
      with (page_requests (page + 1) (S n) (ReqShipsPage page :: h)).
    rewrite IH. cbn [page_requests]. do 2 f_equal. lia.
Qed.

(** C4: [update_cache_full] asks for page 1, then 2, ..., and stops at the
    first page whose number is >= the page count it reports.  When the pages
    before page [n] report a larger count and page [n] does not, enough fuel
    ([n] turns) gives: exactly the requests for pages 1..n, the pages merged
    in order into one dict, and that dict saved in the cache file.  For
    well-formed pages the merge is their union: a key maps to its value in
    the last page that has it. *)
Theorem update_cache_full_pages
    (remote : list request -> request -> reply) (py_repr : pyval -> string)
    (fuel : nat) (w : world)
    (init : list (dict * pyval)) (j : pyval) (ships : dict) (total : pyval) :
  continues remote (requests_of (trace w)) 1 init ->
  replies_json remote (page_requests 1 (length init) (requests_of (trace w)))
    (ReqShipsPage (1 + Z.of_nat (length init))) j ->
  page_listing j ships total ->
  int_ge (1 + Z.of_nat (length init)) total = Ok true ->
  (length init < fuel)%nat ->
  let pages := map fst init ++ [ships] in
  let cache := merged [] pages in
  exists w',
    Main.update_cache_full remote py_repr fuel w = (Done cache, w')
    /\ requests_of (trace w')
       = page_requests 1 (S (length init)) (requests_of (trace w))
    /\ files w' = <[Main.CACHE_FILE := FJson (PDict cache)]> (files w)
    /\ (Forall wf_dict pages ->
        forall k, dict_get cache k = lookup_pages pages k None).
Proof.
  intros Hinit Hj Hl Hge Hfuel pages cache.
  destruct (Nat.le_exists_sub (S (length init)) fuel Hfuel) as (extra & -> & _).
  set (w0 := {| files := files w; trace := EvPrint MsgFetchingAll :: trace w |}).
  assert (Hloop : exists t,
             Main.update_cache_loop remote py_repr (extra + S (length init)) 1 [] w0
             = (Done cache, {| files := files w; trace := t |})
             /\ requests_of t
                = page_requests 1 (S (length init)) (requests_of (trace w))).
  { replace (extra + S (length init))%nat with (length init + S extra)%nat by lia.
    rewrite (update_cache_loop_continues remote py_repr init (S extra) 1 [] w0)
      by exact Hinit.
    cbn [files trace].
    rewrite (update_cache_loop_step remote py_repr extra _ _ _ j ships total true);
      [ | cbn [trace]; rewrite requests_of_fetched; exact Hj | exact Hl | exact Hge ].
    cbn zeta. cbn [files trace]. eexists. split.
    - unfold cache, pages, merged. rewrite fold_left_app. reflexivity.
    - rewrite requests_of_print, requests_of_request, requests_of_fetched,
        page_requests_last.
      reflexivity. }
  destruct Hloop as (t & Hloop & Hreq).
  eexists. split; [|split; [|split]].
  - unfold Main.update_cache_full.
    rewrite (bind_run _ _ w tt w0) by reflexivity.
    rewrite (bind_run _ _ _ _ _ Hloop). reflexivity.
  - cbn [trace]. rewrite requests_of_print. exact Hreq.
  - reflexivity.
  - intros Hwf k. unfold cache. now rewrite dict_get_merged.
Qed.

Lemma update_cache_full_pages_witness :
  exists w',
    Main.update_cache_full two_page_remote (fun _ => "?"%string) 2 empty_world
    = (Done (page_one ++ page_two), w')
    /\ requests_of (trace w') = [ReqShipsPage 2; ReqShipsPage 1]
    /\ files w' = <[Main.CACHE_FILE := FJson (PDict (page_one ++ page_two))]> ∅
    /\ (Forall wf_dict [page_one; page_two] ->
        forall k, dict_get (page_one ++ page_two) k
                  = lookup_pages [page_one; page_two] k None).
Proof.
  apply (update_cache_full_pages two_page_remote (fun _ => "?"%string) 2 empty_world
           [(page_one, PInt 2)] (page_json page_two 2) page_two (PInt 2)).
  - split; [|split; [reflexivity | exact I]].
    exists (page_json page_one 2). split.
    + eexists. repeat split.
    + eexists _, _. repeat split.
  - eexists. repeat split.
  - eexists _, _. repeat split.
  - reflexivity.
  - cbn. lia.
Defined.

(** The run of the two-page rebuild, event by event (most recent first):
    two requests, one sleep between them. *)
Example two_pages_trace :
  snd (Main.update_cache_full two_page_remote (fun _ => "?"%string) 2 empty_world)
  = {| files := {[ Main.CACHE_FILE := FJson (PDict (page_one ++ page_two)) ]};
       trace := [ EvPrint (MsgCacheSaved 3);
                  EvPrint (MsgFetchedPage 2 (PInt 2) 3);
                  EvRequest (ReqShipsPage 2);
                  EvSleep 200;
                  EvPrint (MsgFetchedPage 1 (PInt 2) 2);
                  EvRequest (ReqShipsPage 1);
                  EvPrint MsgFetchingAll ] |}.
Proof. reflexivity. Qed.

(** With too little fuel the model says so; it does not invent a result. *)
Example two_pages_one_turn :
  fst (Main.update_cache_full two_page_remote (fun _ => "?"%string) 1 empty_world)
  = OutOfFuel.
Proof. reflexivity. Qed.

(** ** A status other than "ok" *)

(** C7, as stated, fails for the detail fetch: on a status other than "ok"
    [fetch_and_save_ship] returns normally; no exception reaches its
    caller, which cannot tell this call from a successful one. *)
Lemma fetch_and_save_ship_returns_normally :
  eq_str (get_or [("status", PStr "error")]%string "status" PNone) "ok" = false
  /\ fst (Get.fetch_and_save_ship error_remote (fun _ => "?"%string)
            (PStr "Yamato") (PInt 300) empty_world) = Done tt
  /\ fst (Get.fetch_and_save_ship
            (fun _ _ => Reply (json_response (PDict [("status", PStr "ok")]%string)))
            (fun _ => "?"%string) (PStr "Yamato") (PInt 300) empty_world) = Done tt.
Proof. repeat split. Qed.

(** C7, amended.  For the ship list: a JSON reply whose status is not "ok"
    makes [update_cache_full] raise [RuntimeError] with the message
    "API error when fetching ships list: " followed by the reply, whatever
    pages were fetched before; nothing is written.  For the detail fetch:
    such a reply makes [fetch_and_save_ship] print a failure message with
    the ship and the reply, write no file and return normally. *)
Theorem status_not_ok
    (remote : list request -> request -> reply) (py_repr : pyval -> string)
    (w : world) (d : dict) :
  eq_str (get d "status") "ok" = false ->
  (forall fuel init,
      continues remote (requests_of (trace w)) 1 init ->
      replies_json remote (page_requests 1 (length init) (requests_of (trace w)))
        (ReqShipsPage (1 + Z.of_nat (length init))) (PDict d) ->
      (length init < fuel)%nat ->
      exists t,
        Main.update_cache_full remote py_repr fuel w
        = (Exc (RuntimeError ("API error when fetching ships list: "
                              +:+ py_str py_repr (PDict d))),
           {| files := files w; trace := t |}))
  /\ (forall ship_name ship_id r,
      files w !! detail_path py_repr ship_name = None ->
      remote (requests_of (trace w)) (ReqShipDetail ship_id) = Reply r ->
      resp_json r = Some (PDict d) ->
      Get.fetch_and_save_ship remote py_repr ship_name ship_id w
      = (Done tt,
         {| files := files w;
            trace := EvPrint (MsgDetailFailed ship_name ship_id (PDict d))
                     :: EvRequest (ReqShipDetail ship_id) :: trace w |})).
Proof.
  intros Hst. split.
  - intros fuel init Hinit Hj Hfuel.
    destruct (Nat.le_exists_sub (S (length init)) fuel Hfuel) as (extra & -> & _).
    set (w0 := {| files := files w; trace := EvPrint MsgFetchingAll :: trace w |}).
    eexists. unfold Main.update_cache_full.
    rewrite (bind_run _ _ w tt w0) by reflexivity.
    apply bind_exc.
    replace (extra + S (length init))%nat with (length init + S extra)%nat by lia.
    rewrite (update_cache_loop_continues remote py_repr init (S extra) 1 [] w0)
      by exact Hinit.
    rewrite (update_cache_loop_bad_status remote py_repr extra _ _ _ d);
      [reflexivity | cbn [trace]; rewrite requests_of_fetched; exact Hj | exact Hst].
  - intros ship_name ship_id r Hfile Hr Hj.
    unfold Get.fetch_and_save_ship.
    rewrite (bind_run _ _ w tt w) by
      (unfold Get.ensure_dir, bind, path_exists;
       destruct (bool_decide _); reflexivity).
    rewrite (bind_run _ _ w false w) by (apply path_exists_None, Hfile).
    unfold try_except, bind, requests_get, json.
    rewrite Hr, Hj. cbn [attr_get_or lift ret].
    change (get_or d "status" PNone) with (get d "status").
    rewrite Hst. reflexivity.
Qed.

Lemma status_not_ok_witness :
  (exists t,
      Main.update_cache_full error_remote (fun _ => "?"%string) 1 empty_world
      = (Exc (RuntimeError "API error when fetching ships list: ?"),
         {| files := ∅; trace := t |}))
  /\ Get.fetch_and_save_ship error_remote (fun _ => "?"%string)
       (PStr "Yamato") (PInt 300) empty_world
     = (Done tt,
        {| files := ∅;
           trace := [ EvPrint (MsgDetailFailed (PStr "Yamato") (PInt 300) error_json);
                      EvRequest (ReqShipDetail (PInt 300)) ] |}).
Proof.
  destruct (status_not_ok error_remote (fun _ => "?"%string) empty_world
              [ ("status", PStr "error");
                ("error", PDict [("code", PInt 407);
                                 ("message", PStr "INVALID_APPLICATION_ID")]) ]%string
              eq_refl) as [Hlist Hdetail].
  split.
  - apply (Hlist 1%nat []); [exact I | | cbn; lia].
    eexists. repeat split.
  - apply (Hdetail (PStr "Yamato") (PInt 300) (json_response error_json));
      reflexivity.
Defined.

(** ** Cache validation *)

Lemma py_any_records (vs : list pyval) :
  Forall is_record vs ->
  Main.py_any Main.contains_ship_id vs = Ok (existsb has_ship_id vs).
Proof.
  induction 1 as [|v vs [r ->] _ IH]; [reflexivity|].
  cbn [Main.py_any Main.contains_ship_id existsb has_ship_id].
  destruct (has_key r "ship_id"); [reflexivity | exact IH].
Qed.

(** On a cache of records the test of line 244 is: no value has a
    ["ship_id"]. *)
Lemma cache_rejected_records (d : dict) :
  Forall is_record (values d) ->
  Main.cache_rejected (PDict d) = Ok (negb (existsb has_ship_id (values d))).
Proof. intros H. unfold Main.cache_rejected. now rewrite py_any_records. Qed.



Section Validation.

Variable remote : list request -> request -> reply.
Variable py_repr : pyval -> string.
Variable int_other : string -> option Z.

Lemma load_json_Some (p : string) (v : pyval) (w : world) :
  files w !! p = Some (FJson v) -> load_json p w = (Done v, w).
Proof.
  intros H. unfold load_json.
  rewrite (bind_run _ _ w true w) by (apply path_exists_Some; rewrite H; eauto).
  cbn [negb]. now rewrite H.
Qed.

Lemma load_or_update_cache_absent (fuel : nat) (w : world) :
  files w !! Main.CACHE_FILE = None ->
  Main.load_or_update_cache remote py_repr fuel false w
  = (let* c := Main.update_cache_full remote py_repr fuel in ret (PDict c)) w.
Proof.
  intros H. unfold Main.load_or_update_cache.
  now rewrite (bind_run _ _ w false w) by (apply path_exists_None, H).
Qed.

Lemma load_or_update_cache_present (fuel : nat) (w : world) (c : pyval) :
  files w !! Main.CACHE_FILE = Some (FJson c) ->
  Main.load_or_update_cache remote py_repr fuel false w
  = match c with
    | PNone => (let* c := Main.update_cache_full remote py_repr fuel in ret (PDict c)) w
    | _ => (Done c, w)
    end.
Proof.
  intros H. unfold Main.load_or_update_cache.
  rewrite (bind_run _ _ w true w) by (apply path_exists_Some; rewrite H; eauto).
  cbn [orb negb].
  rewrite (bind_run _ _ w c w) by (apply load_json_Some, H).
  destruct c; reflexivity.
Qed.



End Validation.



(** * Further properties *)

(** ** Eligibility: further rules *)

Lemma dict_get_set_ne (d : dict) (k k' : string) (v : pyval) :
  k <> k' -> dict_get (dict_set d k v) k' = dict_get d k'.
Proof.
  intros H. rewrite dict_get_set.
  destruct (String.eqb k k') eqn:E; [apply String.eqb_eq in E; contradiction|reflexivity].
Qed.

Lemma get_set_ne (d : dict) (k k' : string) (v : pyval) :
  k <> k' -> get (dict_set d k v) k' = get d k'.
Proof. intros H. unfold get. now rewrite dict_get_set_ne. Qed.

(** X4: the decision reads eight fields only: setting any other field of a
    record to any value leaves the answer as it was. *)
Theorem eligibility_ignores_other_fields (d : dict) (k : string) (v : pyval) :
  ~ In k eligibility_fields ->
  Main.is_buyable_or_researchable (PDict (dict_set d k v))
  = Main.is_buyable_or_researchable (PDict d).
Proof.
  intros H. rewrite !is_buyable_dict. f_equal.
  unfold Main.eligible_fields, Main.has_price.
  assert (Hk : forall k', In k' eligibility_fields -> k <> k')
    by (intros k' Hin ->; contradiction).
  rewrite !(get_set_ne d k) by (apply Hk; cbn; tauto).
  reflexivity.
Qed.

Lemma eligibility_ignores_other_fields_witness :
  Main.is_buyable_or_researchable (PDict (dict_set fletcher "nation" (PStr "usa")))
  = Main.is_buyable_or_researchable (PDict fletcher).
Proof.
  apply eligibility_ignores_other_fields. cbn. intuition discriminate.
Defined.

(** X3: a truthy [is_collectible] or [is_special] (any truthy value, not
    only [True]) excludes the record, researchable and priced or not. *)
Theorem collectible_or_special_never_eligible (d : dict) :
  truthy (get d "is_collectible") = true \/ truthy (get d "is_special") = true ->
  Main.is_buyable_or_researchable (PDict d) = Ok false.
Proof.
  intros H. rewrite is_buyable_dict. unfold Main.eligible_fields.
  destruct (is_True (get d "is_premium")); [reflexivity|].
  destruct H as [-> | ->]; rewrite ?orb_true_r; reflexivity.
Qed.

Lemma collectible_or_special_never_eligible_witness :
  Main.is_buyable_or_researchable (PDict collectible_ship) = Ok false.
Proof. apply collectible_or_special_never_eligible. left. reflexivity. Defined.

(** X1: a record whose [is_researchable] is [True] is eligible as soon as
    [is_premium] is not [True] and [is_collectible] and [is_special] are
    falsy; its prices are not looked at. *)
Theorem researchable_eligible (d : dict) :
  get d "is_researchable" = PBool true ->
  is_True (get d "is_premium") = false ->
  truthy (get d "is_collectible") = false ->
  truthy (get d "is_special") = false ->
  Main.is_buyable_or_researchable (PDict d) = Ok true.
Proof.
  intros Hr Hp Hc Hs. rewrite is_buyable_dict. unfold Main.eligible_fields.
  now rewrite Hp, Hc, Hs, Hr.
Qed.

Lemma researchable_eligible_witness :
  Main.is_buyable_or_researchable (PDict fletcher) = Ok true.
Proof. apply researchable_eligible; reflexivity. Defined.

Lemma any_positive_false (vs : list pyval) :
  Forall (fun v => Main.positive_number v = false) vs ->
  Main.any_positive vs = false.
Proof.
  induction 1 as [|v vs Hv _ IH]; [reflexivity|].
  unfold Main.any_positive in *. cbn [existsb]. now rewrite Hv, IH.
Qed.

(** X2: a record whose [is_researchable] is not [True], whose price table
    ([price], else [prices]) holds no positive number, and whose
    [price_credit] and [price_gold] are not positive numbers, is not
    eligible. *)
Theorem no_researchable_no_price_not_eligible (d : dict) :
  is_True (get d "is_researchable") = false ->
  (forall p, py_or (get d "price") (get d "prices") = PDict p ->
             Forall (fun v => Main.positive_number v = false) (values p)) ->
  Main.positive_number (get d "price_credit") = false ->
  Main.positive_number (get d "price_gold") = false ->
  Main.is_buyable_or_researchable (PDict d) = Ok false.
Proof.
  intros Hr Hp Hc Hg. rewrite is_buyable_dict. unfold Main.eligible_fields.
  destruct (is_True (get d "is_premium")); [reflexivity|].
  destruct (_ || _); [reflexivity|]. rewrite Hr.
  unfold Main.has_price. rewrite Hc, Hg.
  destruct (py_or (get d "price") (get d "prices")) eqn:E; try reflexivity.
  rewrite (any_positive_false _ (Hp _ eq_refl)), andb_false_r. reflexivity.
Qed.

Lemma no_researchable_no_price_not_eligible_witness :
  Main.is_buyable_or_researchable (PDict free_ship) = Ok false.
Proof.
  apply no_researchable_no_price_not_eligible; try reflexivity.
  intros p [= <-]. repeat constructor.
Defined.

(** X5: a [price] that is truthy but not a mapping (a plain number, say) is
    not a price for the classifier, and it hides the [prices] table: only
    [price_credit] and [price_gold] can then make the record buyable. *)
Theorem scalar_price_hides_prices (d : dict) :
  truthy (get d "price") = true ->
  (forall p, get d "price" <> PDict p) ->
  Main.has_price d
  = Main.positive_number (get d "price_credit")
    || Main.positive_number (get d "price_gold").
Proof.
  intros Ht Hn. unfold Main.has_price, py_or. rewrite Ht.
  destruct (get d "price") as [| | | | | |p] eqn:E;
    try (destruct (Main.positive_number (get d "price_credit")),
                  (Main.positive_number (get d "price_gold")); reflexivity).
  now destruct (Hn p).
Qed.

Lemma scalar_price_hides_prices_witness :
  Main.has_price flat_price_ship = false.
Proof.
  apply (scalar_price_hides_prices flat_price_ship); [reflexivity|].
  intros p. discriminate.
Defined.

(** ** Image URL resolution *)

Lemma is_http_str_truthy (v : pyval) : is_http_str v = true -> truthy v = true.
Proof. destruct v as [| | | |[|a s]| |]; try discriminate; reflexivity. Qed.

Lemma first_truthy_Some (d : dict) (keys : list string) (v : pyval) :
  Main.first_truthy d keys = Some v -> truthy v = true.
Proof.
  induction keys as [|k r IH]; [discriminate|]. cbn [Main.first_truthy].
  destruct (truthy (get d k)) eqn:E; [|exact IH]. now intros [= <-].
Qed.

Lemma first_http_Some (d : dict) (keys : list string) (v : pyval) :
  Main.first_http d keys = Some v -> is_http_str v = true.
Proof.
  induction keys as [|k r IH]; [discriminate|]. cbn [Main.first_http].
  destruct (is_http_str (get d k)) eqn:E; [|exact IH]. now intros [= <-].
Qed.

Lemma guess_from_images_Some (images v : pyval) :
  Main.guess_from_images images = Some v -> truthy v = true.
Proof.
  destruct images as [| | | | | |im]; try discriminate. cbn [Main.guess_from_images].
  destruct (Main.first_truthy im _) as [u|] eqn:E.
  - intros [= <-]. exact (first_truthy_Some _ _ _ E).
  - intros H. apply List.find_some in H as [_ H]. now apply is_http_str_truthy.
Qed.

Lemma guess_flat_fields (d : dict) :
  Main.guess_from_images (get d "images") = None ->
  Main.guess_image_url_fields d = PNone
  \/ is_http_str (Main.guess_image_url_fields d) = true.
Proof.
  intros H. unfold Main.guess_image_url_fields. rewrite H.
  destruct (is_http_str (py_or _ _)) eqn:E; [now right|].
  destruct (Main.first_http d _) as [u|] eqn:E'; [right|now left].
  exact (first_http_Some _ _ _ E').
Qed.

Lemma guess_dict (d : dict) :
  Main.guess_image_url_from_shipdata (PDict d) = Ok (Main.guess_image_url_fields d).
Proof. destruct d; reflexivity. Qed.

(** X6: the url found for a record is [None] or a truthy value; when
    [images] is not a mapping it is [None] or a string that starts with
    "http"; a record with none of the eight image fields gets [None]. *)
Theorem guess_image_url_shape (d : dict) (url : pyval) :
  Main.guess_image_url_from_shipdata (PDict d) = Ok url ->
  (url = PNone \/ truthy url = true)
  /\ ((forall im, get d "images" <> PDict im) ->
      url = PNone \/ is_http_str url = true)
  /\ ((forall k, In k image_fields -> dict_get d k = None) -> url = PNone).
Proof.
  rewrite guess_dict. intros [= <-]. split; [|split].
  - destruct (Main.guess_from_images (get d "images")) as [u|] eqn:E.
    + right. unfold Main.guess_image_url_fields. rewrite E.
      exact (guess_from_images_Some _ _ E).
    + destruct (guess_flat_fields d E) as [H|H]; [now left|right].
      now apply is_http_str_truthy.
  - intros Hn. apply guess_flat_fields.
    destruct (get d "images") as [| | | | | |im]; try reflexivity.
    now destruct (Hn im).
  - intros Habs.
    assert (Hg : forall k, In k image_fields -> get d k = PNone)
      by (intros k Hk; unfold get; now rewrite Habs).
    unfold Main.guess_image_url_fields, py_or. cbn [Main.first_http].
    rewrite !Hg by (cbn; tauto). reflexivity.
Qed.

Lemma guess_image_url_shape_witness :
  (PStr image_url = PNone \/ truthy (PStr image_url) = true)
  /\ ((forall im, get with_image "images" <> PDict im) ->
      PStr image_url = PNone \/ is_http_str (PStr image_url) = true)
  /\ ((forall k, In k image_fields -> dict_get with_image k = None) ->
      PStr image_url = PNone).
Proof. apply (guess_image_url_shape with_image). reflexivity. Defined.

(** ** Asset mirror: what a call does *)

Lemma write_chunks_files (out_path : string) (todo written : list string) (w : world) :
  Main.write_chunks out_path written todo w
  = (Done tt,
     {| files := match todo with
                 | [] => files w
                 | _ => <[out_path := FData (written ++ todo)]> (files w)
                 end;
        trace := trace w |}).
Proof.
  revert written w. induction todo as [|c r IH]; intros written w.
  - now destruct w.
  - cbn [Main.write_chunks]. unfold bind, write_file. rewrite IH.
    cbn [files trace]. rewrite <- app_assoc. cbn [app].
    destruct r; [reflexivity|]. now rewrite insert_insert_eq.
Qed.

Lemma download_image_attempt (remote : list request -> request -> reply)
    (u out_path : string) (w : world) :
  truthy (PStr u) = true ->
  files w !! out_path = None ->
  Main.download_image remote (PStr u) out_path w
  = (Done (fst (attempt remote u out_path w)), snd (attempt remote u out_path w)).
Proof.
  intros Hu Hf. unfold Main.download_image, attempt. rewrite Hu. cbn [negb].
  rewrite (bind_run _ _ w false w) by (now apply path_exists_None).
  unfold try_except, bind at 1, requests_get.
  destruct (remote (requests_of (trace w)) (ReqImage u)) as [|r]; [reflexivity|].
  unfold bind at 1, raise_for_status.
  destruct (resp_ok r); [|reflexivity]. cbn [ret].
  unfold bind at 1, write_file. cbn [files trace].
  unfold bind at 1. rewrite write_chunks_files. cbn [files trace app].
  assert (Hfiles :
    match resp_chunks r with
    | [] => <[out_path:=FData []]> (files w)
    | _ :: _ => <[out_path:=FData (resp_chunks r)]> (<[out_path:=FData []]> (files w))
    end = <[out_path := FData (resp_chunks r)]> (files w)).
  { destruct (resp_chunks r); [reflexivity|]. now rewrite insert_insert_eq. }
  rewrite Hfiles. destruct (resp_broken r); reflexivity.
Qed.

Lemma download_image_present (remote : list request -> request -> reply)
    (url : pyval) (out_path : string) (w : world) :
  truthy url = true -> is_Some (files w !! out_path) ->
  Main.download_image remote url out_path w = (Done true, w).
Proof.
  intros Hu Hp. unfold Main.download_image. rewrite Hu. cbn [negb].
  now rewrite (bind_run _ _ w true w) by (now apply path_exists_Some).
Qed.

Lemma download_image_not_str (remote : list request -> request -> reply)
    (url : pyval) (out_path : string) (w : world) :
  truthy url = true -> (forall u, url <> PStr u) ->
  files w !! out_path = None ->
  Main.download_image remote url out_path w
  = (Done false,
     {| files := files w; trace := EvPrint (MsgImageFailed url InvalidURL) :: trace w |}).
Proof.
  intros Hu Hn Hf. unfold Main.download_image. rewrite Hu. cbn [negb].
  rewrite (bind_run _ _ w false w) by (now apply path_exists_None).
  destruct url; try reflexivity. now destruct (Hn s).
Qed.

Lemma download_image_falsy (remote : list request -> request -> reply)
    (url : pyval) (out_path : string) (w : world) :
  truthy url = false ->
  Main.download_image remote url out_path w = (Done false, w).
Proof. intros H. unfold Main.download_image. now rewrite H. Qed.

Lemma str_or_not (v : pyval) : (exists u, v = PStr u) \/ (forall u, v <> PStr u).
Proof. destruct v; try (right; discriminate). left. eauto. Qed.

(** Never raises; touches no other file; an existing file is never
    rewritten; at most one request. *)
Lemma download_image_total (remote : list request -> request -> reply)
    (url : pyval) (out_path : string) (w : world) :
  exists ok w',
    Main.download_image remote url out_path w = (Done ok, w')
    /\ (forall p, p <> out_path -> files w' !! p = files w !! p)
    /\ (is_Some (files w !! out_path) -> files w' = files w)
    /\ (requests_of (trace w') = requests_of (trace w)
        \/ exists u, url = PStr u
                     /\ requests_of (trace w') = ReqImage u :: requests_of (trace w)).
Proof.
  destruct (truthy url) eqn:Hu.
  2:{ exists false, w. rewrite download_image_falsy by exact Hu. auto. }
  destruct (files w !! out_path) as [f|] eqn:Hf.
  { exists true, w. rewrite download_image_present by (rewrite ?Hf; eauto). auto. }
  destruct (str_or_not url) as [[u ->]|Hn].
  2:{ eexists _, _. rewrite download_image_not_str by assumption.
      split; [reflexivity|]. cbn [files trace]. auto. }
  eexists _, _. rewrite download_image_attempt by assumption.
  split; [reflexivity|]. unfold attempt.
  destruct (remote _ _) as [|r]; [|destruct (resp_ok r), (resp_broken r)];
    cbn [fst snd files trace]; (split; [|split]);
    try (intros [? ?]; discriminate);
    try (intros p Hp; now rewrite ?lookup_insert_ne by congruence);
    right; exists u; split; reflexivity.
Qed.

(** X7: [download_image] never raises; it touches no file but the output
    path, never rewrites an output path that exists, and makes at most one
    request, for the url it was given. *)
Theorem download_image_safe (remote : list request -> request -> reply)
    (url : pyval) (out_path : string) (w : world) :
  exists ok w',
    Main.download_image remote url out_path w = (Done ok, w')
    /\ (forall p, p <> out_path -> files w' !! p = files w !! p)
    /\ (is_Some (files w !! out_path) -> files w' = files w)
    /\ (requests_of (trace w') = requests_of (trace w)
        \/ exists u, url = PStr u
                     /\ requests_of (trace w') = ReqImage u :: requests_of (trace w)).
Proof. apply download_image_total. Qed.

(** X8: after a call that returned [True] the output path exists, and every
    later call for it returns [True] without changing anything, whatever the
    remote would answer. *)
Theorem download_image_success_sticks (remote : list request -> request -> reply)
    (url : pyval) (out_path : string) (w w' : world) :
  Main.download_image remote url out_path w = (Done true, w') ->
  is_Some (files w' !! out_path)
  /\ forall remote', Main.download_image remote' url out_path w' = (Done true, w').
Proof.
  intros H.
  assert (Hu : truthy url = true).
  { destruct (truthy url) eqn:Hu; [reflexivity|].
    rewrite download_image_falsy in H by exact Hu. discriminate. }
  assert (Hp : is_Some (files w' !! out_path)).
  { destruct (files w !! out_path) as [f|] eqn:Hf.
    - rewrite download_image_present in H by (rewrite ?Hf; eauto).
      injection H as <-. rewrite Hf. eauto.
    - destruct (str_or_not url) as [[u ->]|Hn].
      + rewrite download_image_attempt in H by assumption.
        injection H as Hok <-. unfold attempt in *.
        destruct (remote _ _) as [|r]; [discriminate|].
        destruct (resp_ok r); [|discriminate].
        destruct (resp_broken r); [discriminate|].
        cbn [snd files]. rewrite lookup_insert_eq. eauto.
      + rewrite download_image_not_str in H by assumption. discriminate. }
  split; [exact Hp|]. intros remote'. now apply download_image_present.
Qed.

Lemma download_image_success_sticks_witness :
  let w' := {| files := {[ "images/ship_100.png"%string := FData ["PNG"%string] ]};
               trace := [EvRequest (ReqImage image_url)] |} in
  is_Some (files w' !! "images/ship_100.png"%string)
  /\ forall remote',
       Main.download_image remote' (PStr image_url) "images/ship_100.png" w'
       = (Done true, w').
Proof.
  intros w'.
  apply (download_image_success_sticks image_remote (PStr image_url)
           "images/ship_100.png" empty_world w').
  reflexivity.
Defined.



(** X10: when the remote does not answer, or answers with a non-2xx status,
    the call returns [False] and writes nothing, so that the next call asks
    again. *)
Theorem refused_download_writes_nothing
    (remote : list request -> request -> reply)
    (u out_path : string) (w : world) :
  truthy (PStr u) = true ->
  files w !! out_path = None ->
  (remote (requests_of (trace w)) (ReqImage u) = NoReply
   \/ exists r, remote (requests_of (trace w)) (ReqImage u) = Reply r
                /\ resp_ok r = false) ->
  exists w',
    Main.download_image remote (PStr u) out_path w = (Done false, w')
    /\ files w' = files w
    /\ forall remote',
        requests_of (trace (snd (Main.download_image remote' (PStr u) out_path w')))
        = ReqImage u :: ReqImage u :: requests_of (trace w).
Proof.
  intros Hu Hf Hr.
  assert (Ha : exists e, attempt remote u out_path w
               = (false, {| files := files w;
                            trace := EvPrint (MsgImageFailed (PStr u) e)
                                     :: EvRequest (ReqImage u) :: trace w |})).
  { unfold attempt. destruct Hr as [-> | (r & -> & ->)]; eauto. }
  destruct Ha as [e Ha]. eexists.
  rewrite download_image_attempt by assumption. rewrite Ha.
  cbn [fst snd]. split; [reflexivity|].
  split; [reflexivity|]. intros remote'.
  rewrite download_image_attempt by assumption. unfold attempt. cbn [trace files].
  rewrite requests_of_print, requests_of_request.
  destruct (remote' _ _) as [|r];
    [|destruct (resp_ok r), (resp_broken r)]; reflexivity.
Qed.

Lemma refused_download_writes_nothing_witness :
  exists w',
    Main.download_image silent_remote (PStr image_url) "images/ship_100.png" empty_world
    = (Done false, w')
    /\ files w' = ∅
    /\ forall remote',
         requests_of (trace (snd (Main.download_image remote' (PStr image_url)
                                    "images/ship_100.png" w')))
         = [ReqImage image_url; ReqImage image_url].
Proof.
  apply (refused_download_writes_nothing silent_remote image_url
           "images/ship_100.png" empty_world); try reflexivity.
  left. reflexivity.
Defined.

(** ** Cache rebuild: effects on every run *)

Lemma keys_dict_set (d : dict) (k : string) (v : pyval) :
  map fst (dict_set d k v)
  = if has_key d k then map fst d else map fst d ++ [k].
Proof.
  unfold has_key. induction d as [|[k0 v0] r IH]; [reflexivity|].
  cbn [dict_set dict_get]. destruct (String.eqb k0 k) eqn:E; [reflexivity|].
  cbn [map fst]. rewrite IH. now destruct (dict_get r k).
Qed.

Lemma has_key_In (d : dict) (k : string) :
  has_key d k = false -> ~ In k (map fst d).
Proof.
  unfold has_key. induction d as [|[k0 v0] r IH]; intros H; [intros []|].
  cbn [dict_get] in H. destruct (String.eqb k0 k) eqn:E; [discriminate|].
  intros [Heq|Hin]; [cbn in Heq; subst; now rewrite String.eqb_refl in E|].
  now apply IH.
Qed.

Lemma wf_dict_set (d : dict) (k : string) (v : pyval) :
  wf_dict d -> wf_dict (dict_set d k v).
Proof.
  unfold wf_dict. intros H. rewrite keys_dict_set.
  destruct (has_key d k) eqn:E; [exact H|].
  apply List.NoDup_app; [exact H | repeat constructor; intros [] |].
  intros x Hx [Heq|[]]. subst x. now apply (has_key_In d k).
Qed.

Lemma wf_dict_update (src d : dict) : wf_dict d -> wf_dict (dict_update d src).
Proof.
  unfold dict_update. revert d. induction src as [|[k v] r IH]; intros d H;
    [exact H|]. cbn [fold_left]. now apply IH, wf_dict_set.
Qed.

Section Effects.

Variable remote : list request -> request -> reply.
Variable py_repr : pyval -> string.
Variable int_other : string -> option Z.

Lemma get_ships_page_effect (page : Z) (w : world) :
  snd (Main.get_ships_page remote page w)
  = {| files := files w; trace := EvRequest (ReqShipsPage page) :: trace w |}.
Proof.
  unfold Main.get_ships_page, bind, requests_get, raise_for_status, json.
  destruct (remote _ _) as [|r]; [reflexivity|].
  destruct (resp_ok r); [|reflexivity]. cbn [ret raise].
  destruct (resp_json r); reflexivity.
Qed.

(** What one run of the loop can do to the world and to the cache. *)
Lemma update_cache_loop_effects (fuel : nat) :
  forall (page : Z) (cache : dict) (w : world),
    let run := Main.update_cache_loop remote py_repr fuel page cache w in
    files (snd run) = files w
    /\ (exists k, (k <= fuel)%nat
                  /\ requests_of (trace (snd run))
                     = page_requests page k (requests_of (trace w)))
    /\ (wf_dict cache -> forall c, fst run = Done c -> wf_dict c).
Proof.
  induction fuel as [|fuel IH]; intros page cache w; cbn zeta.
  { split; [reflexivity|]. split; [exists 0%nat; split; [lia|reflexivity]|].
    intros _ c H. discriminate. }
  match goal with
  | |- context [Main.update_cache_loop ?r ?p ?f ?pg ?c ?x] =>
      pattern (Main.update_cache_loop r p f pg c x)
  end.
  match goal with |- ?P _ => set (Q := P) end.
  cbn [Main.update_cache_loop].
  pose proof (get_ships_page_effect page w) as Hpage.
  set (w1 := {| files := files w; trace := EvRequest (ReqShipsPage page) :: trace w |}) in *.
  assert (Hstop : forall (o : outcome dict), (forall c, o <> Done c) -> Q (o, w1)).
  { intros o Ho. subst Q. cbn [fst snd files trace w1].
    split; [reflexivity|]. split; [exists 1%nat; split; [lia|reflexivity]|].
    intros _ c ->. now destruct (Ho c). }
  unfold bind at 1.
  destruct (Main.get_ships_page remote page w) as [[data| |] w1'] eqn:Hrun;
    cbn [snd] in Hpage; subst w1';
    try (apply Hstop; discriminate).
  destruct data as [| | | | | |d]; try (apply (Hstop (Exc AttributeError)); discriminate).
  cbn [attr_get_or lift]. unfold bind at 1. cbn [ret].
  destruct (negb (eq_str (get_or d "status" PNone) "ok"));
    [apply (Hstop (Exc _)); discriminate|].
  unfold bind at 1. cbn [ret].
  destruct (get_or d "data" (PDict [])) as [| | | | | |ships];
    try (apply (Hstop (Exc AttributeError)); discriminate).
  cbn [items lift]. unfold bind at 1. cbn [ret]. unfold bind at 1. cbn [ret].
  destruct (get_or d "meta" (PDict [])) as [| | | | | |meta];
    try (apply (Hstop (Exc AttributeError)); discriminate).
  cbn [attr_get_or lift]. unfold bind at 1. cbn [ret].
  unfold bind at 1. cbn [print emit files trace].
  destruct (int_ge page (get_or meta "page_total" (PInt 1))) as [[|]|e];
    cbn [lift]; unfold bind at 1; cbn [ret raise].
  - subst Q. cbn [fst snd files trace w1]. split; [reflexivity|].
    split; [exists 1%nat; split; [lia|reflexivity]|].
    intros Hwf c [= <-]. now apply wf_dict_update.
  - unfold bind at 1. cbn [sleep emit files trace].
    specialize (IH (page + 1) (dict_update cache ships)
                  {| files := files w;
                     trace := EvSleep Main.REQUEST_DELAY
                              :: EvPrint (MsgFetchedPage page
                                            (get_or meta "page_total" (PInt 1))
                                            (length (dict_update cache ships)))
                              :: EvRequest (ReqShipsPage page) :: trace w |}).
    cbn zeta in IH. destruct IH as (Hf & (k & Hk & Hreq) & Hwf).
    subst Q. cbv beta. split; [exact Hf|]. split.
    + exists (S k). split; [lia|]. etransitivity; [exact Hreq|reflexivity].
    + intros Hc. apply Hwf. now apply wf_dict_update.
  - subst Q. cbn [fst snd files trace w1]. split; [reflexivity|].
    split; [exists 1%nat; split; [lia|reflexivity]|].
    intros _ c H. discriminate.
Qed.

End Effects.

(** X11: whatever the remote does, [update_cache_full] requests pages 1, 2,
    ..., k in this order and nothing else; it writes the cache file, and
    only when it returns; the cache it returns has pairwise distinct keys. *)
Theorem update_cache_full_effects
    (remote : list request -> request -> reply) (py_repr : pyval -> string)
    (fuel : nat) (w : world) :
  let run := Main.update_cache_full remote py_repr fuel w in
  (exists k, (k <= fuel)%nat
             /\ requests_of (trace (snd run))
                = page_requests 1 k (requests_of (trace w)))
  /\ match fst run with
     | Done c => files (snd run) = <[Main.CACHE_FILE := FJson (PDict c)]> (files w)
                 /\ wf_dict c
     | _ => files (snd run) = files w
     end.
Proof.
  cbn zeta. pattern (Main.update_cache_full remote py_repr fuel w).
  match goal with |- ?P _ => set (Q := P) end.
  unfold Main.update_cache_full.
  set (w0 := {| files := files w; trace := EvPrint MsgFetchingAll :: trace w |}).
  rewrite (bind_run _ _ w tt w0) by reflexivity.
  destruct (update_cache_loop_effects remote py_repr fuel 1 [] w0)
    as (Hf & (k & Hk & Hreq) & Hwf).
  unfold bind at 1.
  destruct (Main.update_cache_loop remote py_repr fuel 1 [] w0) as [[c| |] w1];
    cbn [fst snd] in *; subst Q; cbn [fst snd files trace].
  - unfold bind, save_json, write_file, print, emit, ret.
    cbn [fst snd files trace]. rewrite requests_of_print.
    split; [exists k; split; [exact Hk|exact Hreq]|].
    split; [now rewrite Hf|]. apply Hwf; [constructor | reflexivity].
  - split; [exists k; split; [exact Hk|exact Hreq]|exact Hf].
  - split; [exists k; split; [exact Hk|exact Hreq]|exact Hf].
Qed.

Lemma bind_out_of_fuel {A B} (m : M A) (k : A -> M B) (w w' : world) :
  m w = (OutOfFuel, w') -> bind m k w = (OutOfFuel, w').
Proof. intros H. unfold bind. now rewrite H. Qed.

Section Failures.

Variable remote : list request -> request -> reply.
Variable py_repr : pyval -> string.
Variable int_other : string -> option Z.

Lemma update_cache_loop_transport (fuel : nat) (page : Z) (cache : dict)
    (w : world) (e : exn) :
  transport_error (remote (requests_of (trace w)) (ReqShipsPage page)) = Some e ->
  Main.update_cache_loop remote py_repr (S fuel) page cache w
  = (Exc e, {| files := files w; trace := EvRequest (ReqShipsPage page) :: trace w |}).
Proof.
  intros H. cbn [Main.update_cache_loop]. apply bind_exc.
  unfold Main.get_ships_page, bind, requests_get, raise_for_status, json.
  unfold transport_error in H.
  destruct (remote _ _) as [|r]; [now injection H as <-|].
  destruct (resp_ok r); [|now injection H as <-]. cbn [ret].
  destruct (resp_json r); [discriminate|now injection H as <-].
Qed.

Lemma update_cache_full_after (fuel : nat) (w : world)
    (init : list (dict * pyval)) :
  continues remote (requests_of (trace w)) 1 init ->
  Main.update_cache_full remote py_repr (length init + fuel) w
  = (let* cache := Main.update_cache_loop remote py_repr fuel
                     (1 + Z.of_nat (length init)) (merged [] (map fst init)) in
     save_json Main.CACHE_FILE (PDict cache) >>
     print (MsgCacheSaved (length cache)) >> ret cache)
      {| files := files w;
         trace := fetched 1 [] init (EvPrint MsgFetchingAll :: trace w) |}.
Proof.
  intros Hinit. unfold Main.update_cache_full.
  set (w0 := {| files := files w; trace := EvPrint MsgFetchingAll :: trace w |}).
  rewrite (bind_run _ _ w tt w0) by reflexivity.
  unfold bind at 1.
  rewrite (update_cache_loop_continues remote py_repr init fuel 1 [] w0)
    by exact Hinit.
  reflexivity.
Qed.

End Failures.

(** X12: a transport failure on any page (no reply, a non-2xx status, a body
    that is not JSON) ends the rebuild with the exception of that failure;
    the pages fetched so far are dropped and no file is written. *)
Theorem transport_failure_aborts_rebuild
    (remote : list request -> request -> reply) (py_repr : pyval -> string)
    (fuel : nat) (w : world) (init : list (dict * pyval)) (e : exn) :
  continues remote (requests_of (trace w)) 1 init ->
  transport_error
    (remote (page_requests 1 (length init) (requests_of (trace w)))
       (ReqShipsPage (1 + Z.of_nat (length init)))) = Some e ->
  (length init < fuel)%nat ->
  exists t, Main.update_cache_full remote py_repr fuel w
            = (Exc e, {| files := files w; trace := t |}).
Proof.
  intros Hinit He Hfuel.
  destruct (Nat.le_exists_sub (S (length init)) fuel Hfuel) as (extra & -> & _).
  replace (extra + S (length init))%nat with (length init + S extra)%nat by lia.
  rewrite update_cache_full_after by exact Hinit.
  eexists. apply bind_exc.
  rewrite update_cache_loop_transport with (e := e); [reflexivity|].
  cbn [trace]. rewrite requests_of_fetched, requests_of_print. exact He.
Qed.

Lemma transport_failure_aborts_rebuild_witness :
  exists t, Main.update_cache_full silent_remote no_repr 1 empty_world
            = (Exc ConnectionError, {| files := ∅; trace := t |}).
Proof.
  apply (transport_failure_aborts_rebuild silent_remote no_repr 1 empty_world []);
    [exact I | reflexivity | cbn; lia].
Defined.

(** X13: without ["page_total"] in the reply (or without ["meta"]) the page
    count defaults to 1: one request is made, and the cache is the first
    page. *)
Theorem missing_page_total_single_page
    (remote : list request -> request -> reply) (py_repr : pyval -> string)
    (fuel : nat) (w : world) (d meta ships : dict) :
  replies_json remote (requests_of (trace w)) (ReqShipsPage 1) (PDict d) ->
  get d "status" = PStr "ok" ->
  get_or d "data" (PDict []) = PDict ships ->
  get_or d "meta" (PDict []) = PDict meta ->
  dict_get meta "page_total" = None ->
  (0 < fuel)%nat ->
  exists w',
    Main.update_cache_full remote py_repr fuel w = (Done (dict_update [] ships), w')
    /\ requests_of (trace w') = ReqShipsPage 1 :: requests_of (trace w).
Proof.
  intros Hj Hst Hdata Hmeta Htot Hfuel.
  destruct fuel as [|fuel]; [lia|].
  assert (Hl : page_listing (PDict d) ships (PInt 1)).
  { exists d, meta. repeat split; try assumption.
    unfold get_or. now rewrite Htot. }
  eexists. unfold Main.update_cache_full.
  set (w0 := {| files := files w; trace := EvPrint MsgFetchingAll :: trace w |}).
  rewrite (bind_run _ _ w tt w0) by reflexivity.
  unfold bind at 1.
  rewrite (update_cache_loop_step remote py_repr fuel 1 [] w0 (PDict d) ships
             (PInt 1) true Hj Hl eq_refl).
  split; reflexivity.
Qed.

Lemma missing_page_total_single_page_witness :
  exists w',
    Main.update_cache_full bare_remote no_repr 1 empty_world
    = (Done [("100"%string, PDict [("name"%string, PStr "Fletcher")])], w')
    /\ requests_of (trace w') = [ReqShipsPage 1].
Proof.
  apply (missing_page_total_single_page bare_remote no_repr 1 empty_world
           bare_page [] [("100"%string, PDict [("name"%string, PStr "Fletcher")])]);
    try reflexivity.
  - eexists. repeat split.
  - lia.
Defined.

(** X14: the loop has no bound of its own: if every page reports a page
    count above its own number, the rebuild does not end, whatever the fuel,
    and the cache file is not written. *)
Theorem endless_catalog_never_returns
    (remote : list request -> request -> reply) (py_repr : pyval -> string) :
  (forall h page, exists j ships total,
      replies_json remote h (ReqShipsPage page) j
      /\ page_listing j ships total /\ int_ge page total = Ok false) ->
  forall fuel w,
    fst (Main.update_cache_full remote py_repr fuel w) = OutOfFuel
    /\ files (snd (Main.update_cache_full remote py_repr fuel w)) = files w.
Proof.
  intros Hmore.
  assert (Hloop : forall fuel page cache w,
             fst (Main.update_cache_loop remote py_repr fuel page cache w) = OutOfFuel).
  { induction fuel as [|fuel IH]; intros page cache w; [reflexivity|].
    destruct (Hmore (requests_of (trace w)) page) as (j & ships & total & Hj & Hl & Hge).
    rewrite (update_cache_loop_step remote py_repr fuel page cache w j ships total
               false Hj Hl Hge).
    apply IH. }
  intros fuel w.
  set (w0 := {| files := files w; trace := EvPrint MsgFetchingAll :: trace w |}).
  pose proof (Hloop fuel 1 [] w0) as H1.
  destruct (update_cache_loop_effects remote py_repr fuel 1 [] w0) as (Hf & _).
  unfold Main.update_cache_full.
  rewrite (bind_run _ _ w tt w0) by reflexivity.
  destruct (Main.update_cache_loop remote py_repr fuel 1 [] w0) as [[c| |] w1] eqn:E;
    cbn [fst snd] in *; try discriminate.
  rewrite (bind_out_of_fuel _ _ _ _ E). split; [reflexivity|exact Hf].
Qed.

Lemma endless_catalog_never_returns_witness :
  fst (Main.update_cache_full endless_remote no_repr 3 empty_world) = OutOfFuel
  /\ files (snd (Main.update_cache_full endless_remote no_repr 3 empty_world)) = ∅.
Proof.
  apply (endless_catalog_never_returns endless_remote no_repr).
  intros h page. exists (page_json [] (page + 1)), [], (PInt (page + 1)).
  split; [eexists; repeat split|]. split; [eexists _, _; repeat split|].
  cbn [int_ge]. f_equal. apply Z.leb_gt. lia.
Defined.

Lemma update_cache_full_files
    (remote : list request -> request -> reply) (py_repr : pyval -> string)
    (fuel : nat) (w w' : world) (c : dict) :
  Main.update_cache_full remote py_repr fuel w = (Done c, w') ->
  files w' = <[Main.CACHE_FILE := FJson (PDict c)]> (files w).
Proof.
  unfold Main.update_cache_full.
  set (w0 := {| files := files w; trace := EvPrint MsgFetchingAll :: trace w |}).
  rewrite (bind_run _ _ w tt w0) by reflexivity.
  destruct (update_cache_loop_effects remote py_repr fuel 1 [] w0) as (Hf & _).
  unfold bind at 1.
  destruct (Main.update_cache_loop remote py_repr fuel 1 [] w0) as [[c'| |] w1];
    try discriminate.
  unfold bind, save_json, write_file, print, emit, ret. cbn [fst snd files trace] in *.
  intros [= <- <-]. cbn [files]. now rewrite Hf.
Qed.

(** X15: a finished rebuild is reused: the next [load_or_update_cache] finds
    the file, returns the same cache and asks the remote nothing. *)
Theorem rebuilt_cache_is_reloaded
    (remote : list request -> request -> reply) (py_repr : pyval -> string)
    (fuel : nat) (w w' : world) (c : dict) :
  Main.update_cache_full remote py_repr fuel w = (Done c, w') ->
  forall remote' py_repr' fuel',
    Main.load_or_update_cache remote' py_repr' fuel' false w' = (Done (PDict c), w').
Proof.
  intros H remote' py_repr' fuel'.
  apply update_cache_full_files in H.
  rewrite (load_or_update_cache_present remote' py_repr' fuel' w' (PDict c));
    [reflexivity|].
  rewrite H. apply lookup_insert_eq.
Qed.

Lemma rebuilt_cache_is_reloaded_witness :
  let w' := snd (Main.update_cache_full two_page_remote no_repr 2 empty_world) in
  Main.load_or_update_cache silent_remote no_repr 0 false w'
  = (Done (PDict (page_one ++ page_two)), w').
Proof.
  intros w'.
  apply (rebuilt_cache_is_reloaded two_page_remote no_repr 2 empty_world w'
           (page_one ++ page_two)).
  reflexivity.
Defined.

(** X16: the validation of [main] is applied to a freshly built cache too:
    with no cache file, if the catalog just fetched is a mapping of records
    none of which has a ["ship_id"] (an empty catalog included), the whole
    catalog is fetched a second time. *)
Theorem fresh_cache_without_ids_rebuilt_twice
    (remote : list request -> request -> reply) (py_repr : pyval -> string)
    (fuel : nat) (w w1 : world) (c : dict) :
  files w !! Main.CACHE_FILE = None ->
  Main.update_cache_full remote py_repr fuel w = (Done c, w1) ->
  Forall is_record (values c) ->
  existsb has_ship_id (values c) = false ->
  Main.main_cache remote py_repr fuel w
  = (print MsgCacheInvalid >> Main.update_cache_full remote py_repr fuel) w1.
Proof.
  intros Hf Hrun Hrec Hid. unfold Main.main_cache.
  rewrite (bind_run _ _ w tt w) by reflexivity.
  rewrite (bind_run _ _ w tt w) by reflexivity.
  rewrite (bind_run _ _ w (PDict c) w1).
  2:{ rewrite load_or_update_cache_absent by exact Hf.
      now rewrite (bind_run _ _ w c w1) by exact Hrun. }
  rewrite cache_rejected_records by exact Hrec. rewrite Hid. cbn [negb lift].
  now rewrite (bind_run _ _ w1 true w1) by reflexivity.
Qed.

Lemma fresh_cache_without_ids_rebuilt_twice_witness :
  let w1 := snd (Main.update_cache_full bare_remote no_repr 1 empty_world) in
  Main.main_cache bare_remote no_repr 1 empty_world
  = (print MsgCacheInvalid >> Main.update_cache_full bare_remote no_repr 1) w1
  /\ requests_of (trace (snd (Main.main_cache bare_remote no_repr 1 empty_world)))
     = [ReqShipsPage 1; ReqShipsPage 1].
Proof.
  intros w1. split; [|reflexivity].
  apply (fresh_cache_without_ids_rebuilt_twice bare_remote no_repr 1 empty_world w1
           [("100"%string, PDict [("name"%string, PStr "Fletcher")])]);
    try reflexivity.
  repeat constructor. eexists. reflexivity.
Defined.

(** ** Tier partitioner: what the buckets hold *)

Lemma empty_tiers_lookup (t : Z) :
  Main.empty_tiers !! t = if (1 <=? t) && (t <=? 10) then Some [] else None.
Proof.
  unfold Main.empty_tiers. cbn [map list_to_map foldr uncurry fst snd].
  repeat (rewrite lookup_insert; case_decide; [subst t; reflexivity|]).
  rewrite lookup_empty.
  destruct (1 <=? t) eqn:E1; [|reflexivity].
  destruct (t <=? 10) eqn:E2; [|reflexivity].
  apply Z.leb_le in E1, E2. lia.
Qed.

(** The tier the loop resolves is [int()] of the stated tier value. *)
Lemma resolve_tier_stated (int_other : string -> option Z) (d : dict) :
  Main.resolve_tier int_other d
  = match py_int int_other (stated_tier d) with Ok z => Some z | Raise _ => None end.
Proof.
  unfold Main.resolve_tier. rewrite tier_field_stated.
  now destruct (stated_tier d).
Qed.

Lemma kept_in_resolve (int_other : string -> option Z) (t : Z) (sid : string) (d : dict) :
  kept_in int_other t (sid, PDict d)
  = match Main.resolve_tier int_other d with
    | Some t' => (t' =? t) && Main.eligible_fields d
    | None => false
    end.
Proof.
  unfold kept_in. cbn [snd]. rewrite resolve_tier_stated.
  now destruct (py_int int_other (stated_tier d)).
Qed.

Section Partition.

Variable remote : list request -> request -> reply.
Variable py_repr : pyval -> string.
Variable int_other : string -> option Z.

Lemma attach_image_Done (dl : bool) (sid : string) (d : dict) (t : Z)
    (w w' : world) (e : dict) :
  Main.attach_image remote py_repr dl (PDict d) (Main.ship_entry_of sid d t) w
  = (Done e, w') ->
  exists imgs, e = Main.ship_entry_of sid d t ++ imgs
               /\ image_fields_of py_repr sid d imgs.
Proof.
  unfold Main.attach_image, image_fields_of. rewrite guess_dict. cbn [lift].
  rewrite (bind_run _ _ w (Main.guess_image_url_fields d) w) by reflexivity.
  destruct (truthy (Main.guess_image_url_fields d)) eqn:Ht.
  2:{ intros [= <- <-]. exists []. split; [now rewrite app_nil_r|]. now left. }
  destruct (Main.guess_image_url_fields d) as [| | | |u| |] eqn:Hu;
    try discriminate.
  change (os_path_join Main.IMAGES_DIR _)
    with (os_path_join Main.IMAGES_DIR (image_name py_repr sid d u)).
  set (both := dict_set (dict_set (Main.ship_entry_of sid d t) "image_url" (PStr u))
                 "image" _).
  assert (Hboth : both = Main.ship_entry_of sid d t
                         ++ [("image_url"%string, PStr u);
                             ("image"%string, PStr (image_name py_repr sid d u))])
    by reflexivity.
  assert (Hpop : dict_pop both "image"
                 = Main.ship_entry_of sid d t ++ [("image_url"%string, PStr u)])
    by reflexivity.
  clearbody both.
  destruct dl.
  2:{ intros [= <- <-]. eexists. split; [exact Hboth|]. right. eauto. }
  unfold bind at 1, path_exists.
  destruct (bool_decide _); cbn [negb].
  { intros [= <- <-]. eexists. split; [exact Hboth|]. right. eauto. }
  unfold bind at 1.
  destruct (download_image_total remote (PStr u)
              (os_path_join Main.IMAGES_DIR (image_name py_repr sid d u)) w)
    as (ok & w1 & -> & _).
  destruct ok.
  - unfold bind, print, emit, ret. intros [= <- <-].
    eexists. split; [exact Hboth|]. right. eauto.
  - intros [= <- <-]. eexists. split; [exact Hpop|]. right. eauto.
Qed.

(** One iteration that returns: the record is skipped, or its summary goes
    to the end of the bucket of its tier. *)
Lemma classify_ship_Done (dl : bool) (sid : string) (s : pyval)
    (tiers tiers' : gmap Z (list pyval)) (w w' : world) :
  Main.classify_ship remote py_repr int_other dl sid s tiers w = (Done tiers', w') ->
  ((forall t, 1 <= t <= 10 -> kept_in int_other t (sid, s) = false) /\ tiers' = tiers)
  \/ exists t l e,
       1 <= t <= 10 /\ kept_in int_other t (sid, s) = true
       /\ (forall t', t' <> t -> kept_in int_other t' (sid, s) = false)
       /\ tiers !! t = Some l
       /\ tiers' = <[t := l ++ [e]]> tiers
       /\ summary_of py_repr t (sid, s) e.
Proof.
  unfold Main.classify_ship.
  destruct s as [| | | | | |d]; try discriminate.
  setoid_rewrite kept_in_resolve.
  destruct (Main.resolve_tier int_other d) as [t|] eqn:Ht.
  2:{ cbn [Main.tier_rejected]. intros [= <- <-]. now left. }
  destruct (Main.tier_rejected (Some t)) eqn:Hrej.
  { intros [= <- <-]. left. split; [|reflexivity]. intros t' Ht'.
    destruct (t =? t') eqn:E; [|reflexivity]. apply Z.eqb_eq in E. subst t'.
    rewrite tier_accepted_inside in Hrej by exact Ht'. discriminate. }
  assert (Hrange : 1 <= t <= 10).
  { unfold Main.tier_rejected in Hrej.
    apply orb_false_elim in Hrej as [_ Hrej].
    apply negb_false_iff, andb_true_iff in Hrej as [H1 H2].
    apply Z.leb_le in H1, H2. lia. }
  rewrite is_buyable_dict. cbn [lift].
  rewrite (bind_run _ _ w (Main.eligible_fields d) w) by reflexivity.
  destruct (Main.eligible_fields d) eqn:Hel; cbn [negb].
  2:{ intros [= <- <-]. left. split; [|reflexivity]. intros t' _.
      now rewrite andb_false_r. }
  unfold bind at 1.
  destruct (Main.attach_image remote py_repr dl (PDict d)
              (Main.ship_entry_of sid d t) w) as [[e| |] w1] eqn:Hatt;
    try discriminate.
  apply attach_image_Done in Hatt as (imgs & -> & Himgs).
  unfold bind at 1, Main.tiers_append.
  destruct (tiers !! t) as [l|] eqn:Hl; [|discriminate].
  unfold bind, sleep, emit, ret. intros [= <- <-].
  right. exists t, l, (PDict (Main.ship_entry_of sid d t ++ imgs)).
  split; [exact Hrange|]. split; [now rewrite Z.eqb_refl|].
  split.
  { intros t' Hne. destruct (t =? t') eqn:E; [|reflexivity].
    apply Z.eqb_eq in E. congruence. }
  split; [exact Hl|]. split; [reflexivity|].
  exists d, imgs. auto.
Qed.

(** The loop extends each bucket with the summaries of the records kept for
    its tier, in the order of the cache. *)
Lemma classify_all_Done (dl : bool) (cache : dict) :
  forall (tiers0 tiers : gmap Z (list pyval)) (w w' : world),
    Main.classify_all remote py_repr int_other dl cache tiers0 w = (Done tiers, w') ->
    forall t, 1 <= t <= 10 ->
      forall l0, tiers0 !! t = Some l0 ->
        exists new, tiers !! t = Some (l0 ++ new)
                    /\ Forall2 (summary_of py_repr t)
                         (List.filter (kept_in int_other t) cache) new.
Proof.
  induction cache as [|[sid s] rest IH]; intros tiers0 tiers w w' H t Ht l0 Hl0.
  - injection H as <- <-. exists []. rewrite app_nil_r. split; [exact Hl0|constructor].
  - cbn [Main.classify_all] in H. unfold bind at 1 in H.
    destruct (Main.classify_ship remote py_repr int_other dl sid s tiers0 w)
      as [[tiers1| |] w1] eqn:Hship; try discriminate.
    apply classify_ship_Done in Hship.
    cbn [List.filter].
    destruct Hship as [[Hskip ->] | (t1 & l1 & e & Ht1 & Hkept & Hother & Hl1 & -> & Hsum)].
    + rewrite (Hskip t Ht). exact (IH _ _ _ _ H t Ht l0 Hl0).
    + destruct (Z.eq_dec t1 t) as [->|Hne].
      * rewrite Hkept. rewrite Hl0 in Hl1. injection Hl1 as <-.
        destruct (IH _ _ _ _ H t Ht (l0 ++ [e])) as (new & Hnew & Hall);
          [apply lookup_insert_eq|].
        exists (e :: new). rewrite <- app_assoc in Hnew. split; [exact Hnew|].
        now constructor.
      * rewrite (Hother t) by congruence.
        apply (IH _ _ _ _ H t Ht l0). now rewrite lookup_insert_ne.
Qed.

Lemma classify_all_keys (dl : bool) (cache : dict) :
  forall (tiers0 tiers : gmap Z (list pyval)) (w w' : world),
    Main.classify_all remote py_repr int_other dl cache tiers0 w = (Done tiers, w') ->
    forall t, tiers0 !! t = None -> tiers !! t = None.
Proof.
  induction cache as [|[sid s] rest IH]; intros tiers0 tiers w w' H t Hn.
  - now injection H as <- <-.
  - cbn [Main.classify_all] in H. unfold bind at 1 in H.
    destruct (Main.classify_ship remote py_repr int_other dl sid s tiers0 w)
      as [[tiers1| |] w1] eqn:Hship; try discriminate.
    apply classify_ship_Done in Hship.
    destruct Hship as [[_ ->] | (t1 & l1 & e & _ & _ & _ & Hl1 & -> & _)].
    + exact (IH _ _ _ _ H t Hn).
    + apply (IH _ _ _ _ H t). rewrite lookup_insert_ne; [exact Hn|].
      intros ->. congruence.
Qed.

End Partition.

Lemma save_tiers_cons (tiers : gmap Z (list pyval)) (t : Z) (rest : list Z)
    (w : world) (l : list pyval) :
  tiers !! t = Some l ->
  Main.save_tiers tiers (t :: rest) w
  = Main.save_tiers tiers rest
      {| files := <[tier_path t := FJson (PList l)]> (files w);
         trace := EvPrint (MsgTierSaved (tier_path t) (length l)) :: trace w |}.
Proof. intros H. cbn [Main.save_tiers]. now rewrite H. Qed.

Lemma tier_range_cases (t : Z) :
  1 <= t <= 10 ->
  t = 1 \/ t = 2 \/ t = 3 \/ t = 4 \/ t = 5 \/ t = 6 \/ t = 7 \/ t = 8 \/ t = 9 \/ t = 10.
Proof. lia. Qed.

Ltac other_tier_file :=
  rewrite lookup_insert_ne by (let E := fresh in intros E; vm_compute in E; discriminate E).

(** Saving ten present buckets writes the ten tier files and nothing else. *)
Lemma save_tiers_all (tiers : gmap Z (list pyval)) (w : world) :
  (forall t, 1 <= t <= 10 -> is_Some (tiers !! t)) ->
  exists w',
    Main.save_tiers tiers [1; 2; 3; 4; 5; 6; 7; 8; 9; 10] w = (Done tt, w')
    /\ (forall t l, 1 <= t <= 10 -> tiers !! t = Some l ->
                    files w' !! tier_path t = Some (FJson (PList l)))
    /\ requests_of (trace w') = requests_of (trace w).
Proof.
  intros H.
  destruct (H 1 ltac:(lia)) as [l1 H1]. destruct (H 2 ltac:(lia)) as [l2 H2].
  destruct (H 3 ltac:(lia)) as [l3 H3]. destruct (H 4 ltac:(lia)) as [l4 H4].
  destruct (H 5 ltac:(lia)) as [l5 H5]. destruct (H 6 ltac:(lia)) as [l6 H6].
  destruct (H 7 ltac:(lia)) as [l7 H7]. destruct (H 8 ltac:(lia)) as [l8 H8].
  destruct (H 9 ltac:(lia)) as [l9 H9]. destruct (H 10 ltac:(lia)) as [l10 H10].
  eexists.
  rewrite (save_tiers_cons _ _ _ _ _ H1), (save_tiers_cons _ _ _ _ _ H2),
    (save_tiers_cons _ _ _ _ _ H3), (save_tiers_cons _ _ _ _ _ H4),
    (save_tiers_cons _ _ _ _ _ H5), (save_tiers_cons _ _ _ _ _ H6),
    (save_tiers_cons _ _ _ _ _ H7), (save_tiers_cons _ _ _ _ _ H8),
    (save_tiers_cons _ _ _ _ _ H9), (save_tiers_cons _ _ _ _ _ H10).
  cbn [Main.save_tiers ret files trace].
  split; [reflexivity|]. split; [|reflexivity].
  intros t l Ht Hl. cbn [files].
  destruct (tier_range_cases t Ht)
    as [->|[->|[->|[->|[->|[->|[->|[->|[->| ->]]]]]]]]];
    repeat other_tier_file; rewrite lookup_insert_eq; congruence.
Qed.

Section PartitionRun.

Variable remote : list request -> request -> reply.
Variable py_repr : pyval -> string.
Variable int_other : string -> option Z.

Lemma build_Done (cache : dict) (dl : bool) (w w' : world)
    (tiers : gmap Z (list pyval)) :
  Main.build_tiers_and_images remote py_repr int_other cache dl w = (Done tiers, w') ->
  exists w1,
    Main.classify_all remote py_repr int_other dl cache Main.empty_tiers
      {| files := files w; trace := EvPrint MsgClassifying :: trace w |}
    = (Done tiers, w1)
    /\ Main.save_tiers tiers [1; 2; 3; 4; 5; 6; 7; 8; 9; 10] w1 = (Done tt, w').
Proof.
  unfold Main.build_tiers_and_images.
  rewrite (bind_run _ _ w tt {| files := files w;
                                trace := EvPrint MsgClassifying :: trace w |})
    by reflexivity.
  unfold bind at 1.
  destruct (Main.classify_all _ _ _ _ _ _ _) as [[tiers1| |] w1] eqn:Hcl;
    try discriminate.
  unfold bind at 1.
  destruct (Main.save_tiers tiers1 _ w1) as [[[]| |] w2] eqn:Hsave;
    try discriminate.
  intros [= <- <-]. exists w1. split; [reflexivity | exact Hsave].
Qed.

End PartitionRun.

(** X17: a partition that returns has exactly the buckets 1..10, and bucket
    [t] lists, in the order of the cache, one summary for each record whose
    tier is [t] and that is eligible: its four fields as built from the
    record, followed by its image fields. *)
Theorem partition_buckets
    (remote : list request -> request -> reply) (py_repr : pyval -> string)
    (int_other : string -> option Z)
    (cache : dict) (dl : bool) (w w' : world) (tiers : gmap Z (list pyval)) :
  Main.build_tiers_and_images remote py_repr int_other cache dl w = (Done tiers, w') ->
  (forall t, 1 <= t <= 10 ->
     exists l, tiers !! t = Some l
               /\ Forall2 (summary_of py_repr t) (List.filter (kept_in int_other t) cache) l)
  /\ (forall t, ~ (1 <= t <= 10) -> tiers !! t = None).
Proof.
  intros H. apply build_Done in H as (w1 & Hcl & _). split.
  - intros t Ht.
    destruct (classify_all_Done remote py_repr int_other dl cache _ _ _ _ Hcl t Ht [])
      as (new & Hnew & Hall).
    + rewrite empty_tiers_lookup.
      replace (1 <=? t) with true by (symmetry; apply Z.leb_le; lia).
      replace (t <=? 10) with true by (symmetry; apply Z.leb_le; lia).
      reflexivity.
    + exists new. split; [exact Hnew|exact Hall].
  - intros t Ht.
    apply (classify_all_keys remote py_repr int_other dl cache _ _ _ _ Hcl).
    rewrite empty_tiers_lookup.
    destruct (1 <=? t) eqn:E1; [|reflexivity].
    destruct (t <=? 10) eqn:E2; [|reflexivity].
    apply Z.leb_le in E1, E2. lia.
Qed.

Lemma partition_buckets_witness :
  let tiers := <[5 := [PDict fletcher_summary]]> Main.empty_tiers in
  (forall t, 1 <= t <= 10 ->
     exists l, tiers !! t = Some l
               /\ Forall2 (summary_of no_repr t)
                    (List.filter (kept_in no_int t) [("100"%string, PDict fletcher)]) l)
  /\ (forall t, ~ (1 <= t <= 10) -> tiers !! t = None).
Proof.
  intros tiers.
  apply (partition_buckets silent_remote no_repr no_int [("100"%string, PDict fletcher)]
           true empty_world fletcher_world tiers).
  reflexivity.
Defined.

(** Who is kept in tier 5: not the record whose tier is ["5"] after the
    separator 28, whatever [int()] does beyond the plain texts; the record
    whose tier is the fullwidth five exactly when [int()] reads it as 5. *)
Example kept_in_ex (int_other : string -> option Z) :
  let sep := PDict [("tier", PStr (String (ascii_of_nat 28) "5"));
                    ("is_researchable", PBool true)]%string in
  let wide := PDict [("tier", PStr "５"); ("is_researchable", PBool true)]%string in
  kept_in int_other 5 ("8"%string, sep) = false
  /\ kept_in int_other 5 ("9"%string, wide)
     = match int_other "５" with Some z => z =? 5 | None => false end.
Proof.
  split; [reflexivity|].
  unfold kept_in, stated_tier, py_int, int_of_string.
  cbn [snd get dict_get String.eqb Ascii.eqb Bool.eqb].
  change (plain "５") with false. cbv iota.
  destruct (int_other "５"%string) as [z|]; [|reflexivity].
  change (Main.eligible_fields _) with true. apply andb_true_r.
Qed.

(** A partition that returns has written each of the ten tier files,
    with the content of its bucket; a bucket that stayed empty gives a file
    holding the empty list. *)
Lemma build_tier_files
    (remote : list request -> request -> reply) (py_repr : pyval -> string)
    (int_other : string -> option Z)
    (cache : dict) (dl : bool) (w w' : world) (tiers : gmap Z (list pyval)) :
  Main.build_tiers_and_images remote py_repr int_other cache dl w = (Done tiers, w') ->
  forall t, 1 <= t <= 10 ->
    exists l, tiers !! t = Some l
              /\ files w' !! tier_path t = Some (FJson (PList l))
              /\ (List.filter (kept_in int_other t) cache = [] -> l = []).
Proof.
  intros H t Ht. apply build_Done in H as (w1 & Hcl & Hsave).
  assert (Hkeys : forall t, 1 <= t <= 10 ->
            exists l, tiers !! t = Some l
               /\ Forall2 (summary_of py_repr t) (List.filter (kept_in int_other t) cache) l).
  { intros t' Ht'.
    destruct (classify_all_Done remote py_repr int_other dl cache _ _ _ _ Hcl t' Ht' [])
      as (new & Hnew & Hall); [|eauto].
    rewrite empty_tiers_lookup.
    replace (1 <=? t') with true by (symmetry; apply Z.leb_le; lia).
    replace (t' <=? 10) with true by (symmetry; apply Z.leb_le; lia).
    reflexivity. }
  destruct (save_tiers_all tiers w1) as (w2 & Hrun & Hfiles & _).
  { intros t' Ht'. destruct (Hkeys t' Ht') as (l & -> & _). eauto. }
  rewrite Hrun in Hsave. injection Hsave as <-.
  destruct (Hkeys t Ht) as (l & Hl & Hall).
  exists l. split; [exact Hl|]. split; [now apply Hfiles|].
  intros Hnone. rewrite Hnone in Hall. now inversion Hall.
Qed.

(** X18: a partition that returns has written each of the ten tier files,
    with the content of its bucket; a tier without kept record gives a file
    holding the empty list. *)
Theorem partition_writes_ten_files
    (remote : list request -> request -> reply) (py_repr : pyval -> string)
    (int_other : string -> option Z)
    (cache : dict) (dl : bool) (w w' : world) (tiers : gmap Z (list pyval)) :
  Main.build_tiers_and_images remote py_repr int_other cache dl w = (Done tiers, w') ->
  forall t, 1 <= t <= 10 ->
    exists l, tiers !! t = Some l
              /\ files w' !! tier_path t = Some (FJson (PList l))
              /\ (List.filter (kept_in int_other t) cache = [] -> l = []).
Proof. apply build_tier_files. Qed.

Lemma partition_writes_ten_files_witness :
  let tiers := <[5 := [PDict fletcher_summary]]> Main.empty_tiers in
  exists l, tiers !! 3 = Some l
            /\ files fletcher_world !! tier_path 3 = Some (FJson (PList l))
            /\ (List.filter (kept_in no_int 3) [("100"%string, PDict fletcher)] = [] -> l = []).
Proof.
  intros tiers.
  apply (partition_writes_ten_files silent_remote no_repr no_int
           [("100"%string, PDict fletcher)] true empty_world fletcher_world tiers);
    [reflexivity | lia].
Defined.

(** ** Partition without downloads *)







(** X20: one malformed item stops the whole partition with [AttributeError]
    before any tier file is written: a cache value that is not a record, or
    a kept record whose image url is a truthy value that is not a string. *)
Theorem malformed_item_aborts_partition
    (remote : list request -> request -> reply) (py_repr : pyval -> string)
    (int_other : string -> option Z)
    (dl : bool) (c1 c2 : dict) (sid : string) (s : pyval)
    (tiers1 : gmap Z (list pyval)) (w w1 : world) :
  Main.classify_all remote py_repr int_other dl c1 Main.empty_tiers
    {| files := files w; trace := EvPrint MsgClassifying :: trace w |}
  = (Done tiers1, w1) ->
  ((forall d, s <> PDict d)
   \/ exists d, s = PDict d
                /\ Main.tier_rejected (Main.resolve_tier int_other d) = false
                /\ Main.eligible_fields d = true
                /\ truthy (Main.guess_image_url_fields d) = true
                /\ forall u, Main.guess_image_url_fields d <> PStr u) ->
  Main.build_tiers_and_images remote py_repr int_other (c1 ++ (sid, s) :: c2) dl w
  = (Exc AttributeError, w1).
Proof.
  intros H1 Hbad.
  assert (Hship : forall tiers, Main.classify_ship remote py_repr int_other dl sid s tiers w1
                                = (Exc AttributeError, w1)).
  { intros tiers. destruct Hbad as [Hn | (d & -> & Hrej & Hel & Ht & Hn)].
    - destruct s; try reflexivity. now destruct (Hn d).
    - unfold Main.classify_ship. rewrite Hrej, is_buyable_dict, Hel. cbn [lift negb].
      rewrite (bind_run _ _ w1 true w1) by reflexivity. cbn [negb].
      apply bind_exc. unfold Main.attach_image. rewrite guess_dict. cbn [lift].
      rewrite (bind_run _ _ w1 _ w1) by reflexivity. rewrite Ht.
      destruct (Main.guess_image_url_fields d); try reflexivity.
      now destruct (Hn s). }
  assert (Hall : forall c tiers0 wa,
             Main.classify_all remote py_repr int_other dl c tiers0 wa = (Done tiers1, w1) ->
             Main.classify_all remote py_repr int_other dl (c ++ (sid, s) :: c2) tiers0 wa
             = (Exc AttributeError, w1)).
  { induction c as [|[k v] c IH]; intros tiers0 wa Hc.
    - injection Hc as -> ->. cbn [app Main.classify_all]. now apply bind_exc.
    - cbn [app Main.classify_all] in *. unfold bind at 1 in Hc. unfold bind at 1.
      destruct (Main.classify_ship remote py_repr int_other dl k v tiers0 wa) as [[t| |] wb];
        try discriminate.
      now apply IH. }
  unfold Main.build_tiers_and_images.
  rewrite (bind_run _ _ w tt {| files := files w;
                                trace := EvPrint MsgClassifying :: trace w |})
    by reflexivity.
  apply bind_exc. now apply Hall.
Qed.

Lemma malformed_item_aborts_partition_witness :
  Main.build_tiers_and_images silent_remote no_repr no_int
    ([] ++ [("100"%string, PNone)]) true empty_world
  = (Exc AttributeError, {| files := ∅; trace := [EvPrint MsgClassifying] |}).
Proof.
  apply (malformed_item_aborts_partition silent_remote no_repr no_int true [] [] "100" PNone
           Main.empty_tiers empty_world); [reflexivity|].
  left. discriminate.
Defined.

Section PartitionRequests.

Variable remote : list request -> request -> reply.
Variable py_repr : pyval -> string.
Variable int_other : string -> option Z.

Lemma attach_image_requests (dl : bool) (s : pyval) (e : dict) (w : world) :
  let w' := snd (Main.attach_image remote py_repr dl s e w) in
  files w' !! Main.CACHE_FILE = files w !! Main.CACHE_FILE
  /\ (requests_of (trace w') = requests_of (trace w)
      \/ exists u, requests_of (trace w') = ReqImage u :: requests_of (trace w)).
Proof.
  cbn zeta. pattern (Main.attach_image remote py_repr dl s e w).
  match goal with |- ?P _ => set (Q := P) end.
  assert (Hsame : forall o, Q (o, w)) by (intros o; subst Q; cbn; auto).
  assert (Hstep : forall o w1,
             files w1 !! Main.CACHE_FILE = files w !! Main.CACHE_FILE ->
             (requests_of (trace w1) = requests_of (trace w)
              \/ exists u, requests_of (trace w1) = ReqImage u :: requests_of (trace w)) ->
             Q (o, w1)) by (intros o w1 H1 H2; subst Q; cbn; auto).
  unfold Main.attach_image.
  destruct (Main.guess_image_url_from_shipdata s) as [url|e0]; cbn [lift];
    [|apply Hsame].
  rewrite (bind_run _ _ w url w) by reflexivity.
  destruct (truthy url); [|apply Hsame].
  destruct url as [| | | |u| |]; try apply Hsame.
  destruct dl; [|apply Hsame].
  unfold bind at 1, path_exists.
  destruct (bool_decide _) eqn:Hp; cbn [negb]; [apply Hsame|].
  unfold bind at 1.
  match goal with
  | |- context [Main.download_image remote (PStr u) ?p w] =>
      destruct (download_image_total remote (PStr u) p w)
        as (ok & w1 & -> & Hother & _ & Hreq);
      assert (Hc : files w1 !! Main.CACHE_FILE = files w !! Main.CACHE_FILE)
        by (apply Hother; vm_compute; discriminate)
  end.
  assert (Hreq' : requests_of (trace w1) = requests_of (trace w)
                  \/ exists u0, requests_of (trace w1) = ReqImage u0 :: requests_of (trace w)).
  { destruct Hreq as [Hreq | (u0 & _ & Hreq)]; eauto. }
  destruct ok; [|now apply Hstep].
  unfold bind, print, emit, ret. apply Hstep; cbn [files trace];
    [exact Hc | now rewrite requests_of_print].
Qed.

Lemma classify_ship_requests (dl : bool) (sid : string) (s : pyval)
    (tiers : gmap Z (list pyval)) (w : world) :
  let w' := snd (Main.classify_ship remote py_repr int_other dl sid s tiers w) in
  files w' !! Main.CACHE_FILE = files w !! Main.CACHE_FILE
  /\ (requests_of (trace w') = requests_of (trace w)
      \/ exists u, requests_of (trace w') = ReqImage u :: requests_of (trace w)).
Proof.
  cbn zeta. pattern (Main.classify_ship remote py_repr int_other dl sid s tiers w).
  match goal with |- ?P _ => set (Q := P) end.
  assert (Hsame : forall o, Q (o, w)) by (intros o; subst Q; cbn; auto).
  unfold Main.classify_ship.
  destruct s as [| | | | | |d]; try apply Hsame.
  destruct (Main.tier_rejected _); [apply Hsame|].
  rewrite is_buyable_dict. cbn [lift].
  rewrite (bind_run _ _ w _ w) by reflexivity.
  destruct (Main.eligible_fields d); cbn [negb]; [|apply Hsame].
  pose proof (attach_image_requests dl (PDict d)
                (Main.ship_entry_of sid d
                   match Main.resolve_tier int_other d with Some t => t | None => 0 end) w)
    as Hatt. cbn zeta in Hatt.
  unfold bind at 1.
  destruct (Main.attach_image _ _ _ _ _ _) as [[e| |] w1]; cbn [snd] in Hatt;
    try (subst Q; cbn; exact Hatt).
  unfold bind at 1, Main.tiers_append.
  destruct (tiers !! _); [|subst Q; cbn; exact Hatt].
  unfold bind, sleep, emit, ret. subst Q. cbn [snd files trace].
  now rewrite requests_of_sleep.
Qed.

Lemma classify_all_requests (dl : bool) (cache : dict) :
  forall (tiers : gmap Z (list pyval)) (w : world),
    let w' := snd (Main.classify_all remote py_repr int_other dl cache tiers w) in
    files w' !! Main.CACHE_FILE = files w !! Main.CACHE_FILE
    /\ exists urls, (length urls <= length cache)%nat
                    /\ requests_of (trace w')
                       = map ReqImage urls ++ requests_of (trace w).
Proof.
  induction cache as [|[sid s] rest IH]; intros tiers w; cbn zeta.
  - split; [reflexivity|]. exists []. split; [reflexivity|reflexivity].
  - pattern (Main.classify_all remote py_repr int_other dl ((sid, s) :: rest) tiers w).
    match goal with |- ?P _ => set (Q := P) end.
    cbn [Main.classify_all]. unfold bind at 1.
    destruct (classify_ship_requests dl sid s tiers w) as (Hc & Hreq).
    assert (Hone : exists urls, (length urls <= 1)%nat
                /\ requests_of (trace (snd (Main.classify_ship remote py_repr int_other dl sid s tiers w)))
                   = map ReqImage urls ++ requests_of (trace w)).
    { destruct Hreq as [Hreq | (u & Hreq)];
        [exists [] | exists [u]]; (split; [cbn; lia | exact Hreq]). }
    destruct Hone as (urls1 & Hlen1 & Hreq1).
    destruct (Main.classify_ship remote py_repr int_other dl sid s tiers w) as [[tiers1| |] w1];
      cbn [snd] in *.
    + destruct (IH tiers1 w1) as (Hc2 & urls2 & Hlen2 & Hreq2). subst Q. cbv beta.
      split; [now rewrite Hc2|].
      exists (urls2 ++ urls1). split; [rewrite length_app; cbn [length]; lia|].
      rewrite Hreq2, Hreq1, map_app. now rewrite app_assoc.
    + subst Q. cbn [snd]. split; [exact Hc|]. exists urls1. split; [cbn; lia|exact Hreq1].
    + subst Q. cbn [snd]. split; [exact Hc|]. exists urls1. split; [cbn; lia|exact Hreq1].
Qed.

Lemma save_tiers_requests (tiers : gmap Z (list pyval)) (ts : list Z) :
  Forall (fun t => 1 <= t <= 10) ts ->
  forall w,
    let w' := snd (Main.save_tiers tiers ts w) in
    files w' !! Main.CACHE_FILE = files w !! Main.CACHE_FILE
    /\ requests_of (trace w') = requests_of (trace w).
Proof.
  induction 1 as [|t rest Ht _ IH]; intros w; cbn zeta; [split; reflexivity|].
  cbn [Main.save_tiers].
  destruct (tiers !! t) as [l|] eqn:Hl; [|split; reflexivity].
  change ((save_json _ (PList l) >> print _ >> Main.save_tiers tiers rest) w)
    with (Main.save_tiers tiers rest
            {| files := <[tier_path t := FJson (PList l)]> (files w);
               trace := EvPrint (MsgTierSaved (tier_path t) (length l)) :: trace w |}).
  destruct (IH {| files := <[tier_path t := FJson (PList l)]> (files w);
                  trace := EvPrint (MsgTierSaved (tier_path t) (length l)) :: trace w |})
    as (Hc & Hreq).
  cbn zeta in *. rewrite Hc, Hreq. cbn [files trace]. split; [|reflexivity].
  apply lookup_insert_ne.
  destruct (tier_range_cases t Ht)
    as [->|[->|[->|[->|[->|[->|[->|[->|[->| ->]]]]]]]]];
    vm_compute; discriminate.
Qed.

End PartitionRequests.

(** X21: however it ends, the partition asks the remote for images only, at
    most one for each cache item, and leaves the cache file as it is. *)
Theorem partition_requests_images_only
    (remote : list request -> request -> reply) (py_repr : pyval -> string)
    (int_other : string -> option Z)
    (cache : dict) (dl : bool) (w : world) :
  let w' := snd (Main.build_tiers_and_images remote py_repr int_other cache dl w) in
  files w' !! Main.CACHE_FILE = files w !! Main.CACHE_FILE
  /\ exists urls, (length urls <= length cache)%nat
                  /\ requests_of (trace w')
                     = map ReqImage urls ++ requests_of (trace w).
Proof.
  cbn zeta. pattern (Main.build_tiers_and_images remote py_repr int_other cache dl w).
  match goal with |- ?P _ => set (Q := P) end.
  unfold Main.build_tiers_and_images.
  set (w0 := {| files := files w; trace := EvPrint MsgClassifying :: trace w |}).
  rewrite (bind_run _ _ w tt w0) by reflexivity.
  destruct (classify_all_requests remote py_repr int_other dl cache Main.empty_tiers w0)
    as (Hc & urls & Hlen & Hreq).
  unfold bind at 1.
  destruct (Main.classify_all _ _ _ _ _ _ _) as [[tiers| |] w1]; cbn [snd] in *;
    try (subst Q; cbn [snd]; split; [exact Hc | exists urls; split; [exact Hlen|exact Hreq]]).
  destruct (save_tiers_requests tiers [1; 2; 3; 4; 5; 6; 7; 8; 9; 10]) with (w := w1)
    as (Hc2 & Hreq2); [repeat constructor; lia|].
  unfold bind at 1.
  destruct (Main.save_tiers tiers _ w1) as [[[]| |] w2]; cbn [snd] in *;
    subst Q; cbn [snd ret]; (split; [now rewrite Hc2 |]);
    exists urls; (split; [exact Hlen | now rewrite Hreq2]).
Qed.

(** ** Dict keys *)

Example key_eqb_ex :
  (key_eqb (PInt 1) (PBool true), key_eqb (PInt 1) (PFloat (S754_finite false 1 0)),
   key_eqb (PInt 6) (PFloat (S754_finite false 3 1)),
   key_eqb (PInt 1) (PStr "1"), key_eqb (PStr "a") (PStr "a"),
   key_eqb (PFloat (S754_finite false 1 (-1))) (PFloat (S754_finite false 2 (-2))),
   key_eqb (PInt 0) (PFloat (S754_zero true)), key_eqb (PInt 2) (PInt 3))
  = (true, true, true, false, true, true, true, false).
Proof. reflexivity. Qed.

(** ** get.py *)

Lemma key_eqb_trans_l (a b c : pyval) :
  key_eqb a b = true -> key_eqb a c = key_eqb b c.
Proof.
  unfold key_eqb. intros H. apply bool_decide_eq_true in H. now rewrite H.
Qed.

Lemma kdict_get_set (d : kdict) (k v k' : pyval) :
  kdict_get (kdict_set d k v) k'
  = if key_eqb k k' then Some v else kdict_get d k'.
Proof.
  induction d as [|[k0 v0] r IH]; cbn [kdict_set kdict_get]; [reflexivity|].
  destruct (key_eqb k0 k) eqn:E; cbn [kdict_get].
  - rewrite (key_eqb_trans_l _ _ k' E). now destruct (key_eqb k k').
  - rewrite IH. destruct (key_eqb k0 k') eqn:E'; [|reflexivity].
    destruct (key_eqb k k') eqn:E''; [|reflexivity].
    unfold key_eqb in *. apply bool_decide_eq_true in E', E''.
    apply bool_decide_eq_false in E. congruence.
Qed.

Lemma ships_of_list_lookup (infos : list pyval) :
  forall ships,
    Forall (fun info => selected info = true -> hashable (name_of info) = true) infos ->
    exists ships',
      GetMain.ships_of_list infos ships = Ok ships'
      /\ forall k, kdict_get ships' k = last_ship infos k (kdict_get ships k).
Proof.
  induction infos as [|info rest IH]; intros ships Hh.
  - exists ships. split; reflexivity.
  - apply Forall_cons_iff in Hh as [Hinfo Hrest].
    destruct info as [| | | | | |i];
      try (destruct (IH ships Hrest) as (s' & Hs' & Hk); exists s'; split;
           [exact Hs' | exact Hk]).
    cbn [GetMain.ships_of_list]. unfold last_ship. cbn [fold_left selected name_of sid_of].
    destruct (truthy (get i "name") && truthy (get i "ship_id")) eqn:Hsel.
    + unfold setitem. cbn [selected name_of] in Hinfo. rewrite (Hinfo Hsel).
      destruct (IH (kdict_set ships (get i "name") (get i "ship_id")) Hrest)
        as (s' & Hs' & Hk).
      exists s'. split; [exact Hs'|]. intros k. rewrite Hk, kdict_get_set.
      cbn [andb]. reflexivity.
    + destruct (IH ships Hrest) as (s' & Hs' & Hk). exists s'. split; [exact Hs'|].
      intros k. rewrite Hk. reflexivity.
Qed.

(** X25: reading a tier file that holds a list: the entries that are records
    with a truthy [name] and a truthy [ship_id] are collected by name; a
    name met twice keeps the id of its last entry; the other entries are
    skipped.  Nothing fails when the names can be dict keys. *)
Theorem load_ships_from_list
    (filepath : string) (infos : list pyval) (s : GetMain.state) :
  files (GetMain.base s) !! filepath = Some (FJson (PList infos)) ->
  Forall (fun info => selected info = true -> hashable (name_of info) = true) infos ->
  exists ships,
    GetMain.load_ships_from_tier_file filepath s = (GetMain.GDone ships, s)
    /\ forall k, kdict_get ships k = last_ship infos k None.
Proof.
  intros Hf Hh.
  destruct (ships_of_list_lookup infos [] Hh) as (ships & Hs & Hk).
  exists ships. split; [|exact Hk].
  unfold GetMain.load_ships_from_tier_file, GetMain.gbind, GetMain.open_json.
  rewrite Hf. cbn [GetMain.ships_of_json]. rewrite Hs. reflexivity.
Qed.

Lemma load_ships_from_list_witness :
  exists ships,
    GetMain.load_ships_from_tier_file (tier_path 5) sample_state
    = (GetMain.GDone ships, sample_state)
    /\ forall k, kdict_get ships k = last_ship sample_tier_file k None.
Proof.
  apply (load_ships_from_list (tier_path 5) sample_tier_file sample_state);
    [reflexivity|].
  repeat (constructor; [intros _; reflexivity|]). constructor.
Defined.

(** What reading a tier file can fail with before looking at its
    content: a missing file, or a file that is not JSON. *)
Lemma load_ships_unreadable (filepath : string) (s : GetMain.state) :
  (files (GetMain.base s) !! filepath = None ->
   GetMain.load_ships_from_tier_file filepath s
   = (GetMain.GFail (GetMain.FileNotFoundError filepath), s))
  /\ (forall chunks,
      files (GetMain.base s) !! filepath = Some (FData chunks) ->
      GetMain.load_ships_from_tier_file filepath s
      = (GetMain.GFail (GetMain.PyExn JSONDecodeError), s)).
Proof.
  split; [intros H | intros chunks H];
    unfold GetMain.load_ships_from_tier_file, GetMain.gbind, GetMain.open_json;
    now rewrite H.
Qed.

Section Detail.

Variable remote : list request -> request -> reply.
Variable py_repr : pyval -> string.
Variable int_other : string -> option Z.

(** Every way [fetch_and_save_ship] can go. *)
Lemma fetch_and_save_ship_cases (ship_name ship_id : pyval) (w : world) :
  let path := detail_path py_repr ship_name in
  let sent := EvRequest (ReqShipDetail ship_id) :: trace w in
  Get.fetch_and_save_ship remote py_repr ship_name ship_id w
  = (Done tt,
     match files w !! path with
     | Some _ => {| files := files w; trace := EvPrint (MsgDetailExists ship_name) :: trace w |}
     | None =>
         match remote (requests_of (trace w)) (ReqShipDetail ship_id) with
         | NoReply =>
             {| files := files w;
                trace := EvPrint (MsgDetailError ship_name ConnectionError) :: sent |}
         | Reply r =>
             match resp_json r with
             | None => {| files := files w;
                          trace := EvPrint (MsgDetailError ship_name JSONDecodeError) :: sent |}
             | Some (PDict d) =>
                 if eq_str (get d "status") "ok" then
                   {| files := <[path := FJson (PDict d)]> (files w);
                      trace := EvSleep Get.DETAIL_DELAY
                               :: EvPrint (MsgDetailSaved ship_name) :: sent |}
                 else
                   {| files := files w;
                      trace := EvPrint (MsgDetailFailed ship_name ship_id (PDict d)) :: sent |}
             | Some _ => {| files := files w;
                            trace := EvPrint (MsgDetailError ship_name AttributeError) :: sent |}
             end
         end
     end).
Proof.
  cbn zeta. unfold Get.fetch_and_save_ship.
  rewrite (bind_run _ _ w tt w) by
    (unfold Get.ensure_dir, bind, path_exists; destruct (bool_decide _); reflexivity).
  change (os_path_join Get.OUTPUT_DIR _) with (detail_path py_repr ship_name).
  destruct (files w !! detail_path py_repr ship_name) as [f|] eqn:Hf.
  - rewrite (bind_run _ _ w true w) by (apply path_exists_Some; rewrite Hf; eauto).
    reflexivity.
  - rewrite (bind_run _ _ w false w) by (apply path_exists_None, Hf).
    unfold try_except, bind, requests_get, json.
    destruct (remote _ _) as [|r]; [reflexivity|].
    destruct (resp_json r) as [[| | | | | |d]|]; try reflexivity.
    cbn [attr_get_or lift ret].
    change (get_or d "status" PNone) with (get d "status").
    destruct (eq_str (get d "status") "ok"); reflexivity.
Qed.

End Detail.

(** [fetch_and_save_ship] always returns, whatever the remote does; it
    makes at most one request; it can only write the detail file of the
    ship; and when that file exists it makes no request and writes
    nothing. *)
Lemma fetch_and_save_ship_total
    (remote : list request -> request -> reply) (py_repr : pyval -> string)
    (ship_name ship_id : pyval) (w : world) :
  exists w',
    Get.fetch_and_save_ship remote py_repr ship_name ship_id w = (Done tt, w')
    /\ (forall p, p <> detail_path py_repr ship_name -> files w' !! p = files w !! p)
    /\ (requests_of (trace w') = requests_of (trace w)
        \/ requests_of (trace w') = ReqShipDetail ship_id :: requests_of (trace w))
    /\ (is_Some (files w !! detail_path py_repr ship_name) ->
        files w' = files w /\ requests_of (trace w') = requests_of (trace w)).
Proof.
  eexists. split; [apply fetch_and_save_ship_cases|].
  destruct (files w !! detail_path py_repr ship_name) as [f|] eqn:Hf.
  { cbn [files trace]. repeat split; auto. }
  assert (Hno : ~ is_Some (@None file)) by (intros [? ?]; discriminate).
  destruct (remote _ _) as [|r]; [cbn [files trace]; repeat split; auto; tauto|].
  destruct (resp_json r) as [[| | | | | |d]|];
    try (cbn [files trace]; repeat split; auto; tauto).
  destruct (eq_str (get d "status") "ok"); cbn [files trace].
  - split; [intros p Hp; now rewrite lookup_insert_ne by congruence|].
    split; [now right | tauto].
  - repeat split; auto; tauto.
Qed.

(** X22: [fetch_and_save_ship] always returns, whatever the remote does; it
    makes at most one request; it can only write the detail file of the
    ship; and when that file exists it makes no request and writes nothing. *)
Theorem fetch_and_save_ship_safe
    (remote : list request -> request -> reply) (py_repr : pyval -> string)
    (ship_name ship_id : pyval) (w : world) :
  exists w',
    Get.fetch_and_save_ship remote py_repr ship_name ship_id w = (Done tt, w')
    /\ (forall p, p <> detail_path py_repr ship_name -> files w' !! p = files w !! p)
    /\ (requests_of (trace w') = requests_of (trace w)
        \/ requests_of (trace w') = ReqShipDetail ship_id :: requests_of (trace w))
    /\ (is_Some (files w !! detail_path py_repr ship_name) ->
        files w' = files w /\ requests_of (trace w') = requests_of (trace w)).
Proof. apply fetch_and_save_ship_total. Qed.



(** ** get.py: the main loop *)

Lemma tier_files_loop_spec (ts : list Z) :
  forall found s,
  exists ns,
    GetMain.tier_files_loop ts found s
    = (GetMain.GDone (found ++ List.filter (present (GetMain.base s)) (map tier_path ts)),
       {| GetMain.base := GetMain.base s; GetMain.notices := ns ++ GetMain.notices s |})
    /\ length ns = length (List.filter (fun p => negb (present (GetMain.base s) p))
                             (map tier_path ts)).
Proof.
  induction ts as [|t rest IH]; intros found [w ns0].
  - exists []. rewrite app_nil_r. split; reflexivity.
  - cbn [GetMain.tier_files_loop map List.filter GetMain.base].
    change (os_path_join GetMain.TIERS_DIR _) with (tier_path t).
    unfold GetMain.gbind at 1, GetMain.run, path_exists. cbn [GetMain.base GetMain.notices].
    fold (present w (tier_path t)).
    destruct (present w (tier_path t)) eqn:Hp; cbn [negb].
    + destruct (IH (found ++ [tier_path t]) {| GetMain.base := w; GetMain.notices := ns0 |})
        as (ns & Hrun & Hlen).
      exists ns. rewrite Hrun. cbn [GetMain.base GetMain.notices].
      rewrite <- app_assoc. split; [reflexivity|exact Hlen].
    + unfold GetMain.gbind at 1, GetMain.note. cbn [GetMain.base GetMain.notices].
      destruct (IH found {| GetMain.base := w;
                            GetMain.notices :=
                              (length (trace w), GetMain.TierFileMissing (tier_path t)) :: ns0 |})
        as (ns & Hrun & Hlen).
      exists (ns ++ [(length (trace w), GetMain.TierFileMissing (tier_path t))]).
      rewrite Hrun. cbn [GetMain.base GetMain.notices length].
      rewrite <- app_assoc, length_app. cbn [app length].
      split; [reflexivity|]. rewrite Hlen. cbn [GetMain.base]. lia.
Qed.

Section MainLoop.

Variable remote : list request -> request -> reply.
Variable py_repr : pyval -> string.
Variable int_other : string -> option Z.

Lemma load_ships_base (filepath : string) (s : GetMain.state) :
  snd (GetMain.load_ships_from_tier_file filepath s) = s
  /\ fst (GetMain.load_ships_from_tier_file filepath s) <> GetMain.GOutOfFuel
  /\ (is_Some (files (GetMain.base s) !! filepath) ->
      forall p, fst (GetMain.load_ships_from_tier_file filepath s)
                <> GetMain.GFail (GetMain.FileNotFoundError p)).
Proof.
  unfold GetMain.load_ships_from_tier_file, GetMain.gbind, GetMain.open_json.
  destruct (files (GetMain.base s) !! filepath) as [[v|c]|].
  - destruct (GetMain.ships_of_json v); cbn; repeat split; try discriminate.
  - cbn. repeat split; discriminate.
  - cbn. repeat split; try discriminate. intros [? ?]. discriminate.
Qed.

Lemma load_all_base (tier_files : list string) :
  forall total s,
    Forall (fun p => is_Some (files (GetMain.base s) !! p)) tier_files ->
    snd (GetMain.load_all tier_files total s) = s
    /\ match fst (GetMain.load_all tier_files total s) with
       | GetMain.GDone _ => True
       | GetMain.GFail f => exists e, f = GetMain.PyExn e
       | GetMain.GOutOfFuel => False
       end.
Proof.
  induction tier_files as [|p rest IH]; intros total s Hall.
  - split; [reflexivity|exact I].
  - apply Forall_cons_iff in Hall as [Hp Hrest].
    pattern (GetMain.load_all (p :: rest) total s).
    match goal with |- ?P _ => set (Q := P) end.
    cbn [GetMain.load_all]. unfold GetMain.gbind at 1.
    destruct (load_ships_base p s) as (Hs & Hfuel & Hfound).
    destruct (GetMain.load_ships_from_tier_file p s) as [[ships|f|] s'];
      cbn [fst snd] in *; subst s' Q; cbv beta.
    + apply IH, Hrest.
    + split; [reflexivity|]. cbn [fst]. destruct f as [e|q]; [eauto|].
      now destruct (Hfound Hp q).
    + now destruct Hfuel.
Qed.

(** The detail requests for the ships [made], most recent first. *)
Lemma fetch_all_spec (ships : kdict) :
  forall s,
  exists w' made,
    GetMain.fetch_all remote py_repr ships s
    = (GetMain.GDone tt, {| GetMain.base := w'; GetMain.notices := GetMain.notices s |})
    /\ sublist made (map snd ships)
    /\ requests_of (trace w')
       = rev (map ReqShipDetail made) ++ requests_of (trace (GetMain.base s)).
Proof.
  induction ships as [|[name sid] rest IH]; intros [w ns].
  - exists w, []. split; [reflexivity|]. split; [constructor|reflexivity].
  - cbn [GetMain.fetch_all]. unfold GetMain.gbind at 1, GetMain.run.
    cbn [GetMain.base GetMain.notices].
    destruct (fetch_and_save_ship_total remote py_repr name sid w)
      as (w1 & Hrun & _ & Hreq & _).
    rewrite Hrun.
    destruct (IH {| GetMain.base := w1; GetMain.notices := ns |})
      as (w' & made & Hrest & Hsub & Hreq').
    cbn [GetMain.base GetMain.notices] in *.
    destruct Hreq as [Hreq|Hreq].
    + exists w', made. split; [exact Hrest|]. split.
      * cbn [map snd]. now constructor.
      * now rewrite Hreq', Hreq.
    + exists w', (sid :: made). split; [exact Hrest|]. split.
      * cbn [map snd]. now constructor.
      * rewrite Hreq', Hreq. cbn [map rev]. now rewrite <- app_assoc.
Qed.

End MainLoop.

Lemma filter_present_all (w : world) (ps : list string) :
  Forall (fun p => is_Some (files w !! p)) (List.filter (present w) ps).
Proof.
  apply List.Forall_forall. intros p Hp. apply List.filter_In in Hp as [_ Hp].
  unfold present in Hp. now apply bool_decide_eq_true in Hp.
Qed.

(** X26: [main] of get.py either completes or stops while reading the tier
    files, and then with a Python exception, never because a tier file is
    missing (missing ones are skipped), and before anything is requested or
    written.  When it completes, its requests are detail requests, at most
    one for each name found in the tier files, in the order of the names. *)
Theorem get_main_outcomes
    (remote : list request -> request -> reply) (py_repr : pyval -> string)
    (s : GetMain.state) :
  exists o s',
    GetMain.main remote py_repr s = (o, s')
    /\ match o with
       | GetMain.GDone _ =>
           exists ns ships made,
             GetMain.load_all
               (List.filter (present (GetMain.base s)) tier_paths) []
               {| GetMain.base := GetMain.base s; GetMain.notices := ns |}
             = (GetMain.GDone ships,
                {| GetMain.base := GetMain.base s; GetMain.notices := ns |})
             /\ sublist made (map snd ships)
             /\ requests_of (trace (GetMain.base s'))
                = rev (map ReqShipDetail made)
                  ++ requests_of (trace (GetMain.base s))
       | GetMain.GFail f =>
           (exists e, f = GetMain.PyExn e) /\ GetMain.base s' = GetMain.base s
       | GetMain.GOutOfFuel => False
       end.
Proof.
  unfold GetMain.main.
  change (negb (truthy (PStr GetMain.API_KEY))
          || String.eqb GetMain.API_KEY "YOUR_APPLICATION_ID") with false.
  cbv iota. unfold GetMain.gbind at 1, GetMain.get_all_tier_files.
  destruct (tier_files_loop_spec [1; 2; 3; 4; 5; 6; 7; 8; 9; 10] [] s)
    as (ns & -> & _).
  cbn [app]. fold tier_paths.
  unfold GetMain.gbind at 1, GetMain.note at 1. cbn [GetMain.base GetMain.notices].
  set (s1 := {| GetMain.base := GetMain.base s; GetMain.notices := _ |}).
  unfold GetMain.gbind at 1.
  destruct (load_all_base (List.filter (present (GetMain.base s)) tier_paths) [] s1)
    as (Hs1 & Hout); [apply filter_present_all|].
  destruct (GetMain.load_all _ [] s1) as [[ships|f|] s2] eqn:Hload;
    cbn [fst snd] in *; subst s2.
  - unfold GetMain.gbind at 1, GetMain.note at 1. cbn [GetMain.base GetMain.notices].
    unfold GetMain.gbind at 1.
    match goal with
    | |- context [GetMain.fetch_all remote py_repr ships ?s3] =>
        destruct (fetch_all_spec remote py_repr ships s3)
          as (w' & made & -> & Hsub & Hreq)
    end.
    eexists _, _. split; [reflexivity|].
    exists (GetMain.notices s1), ships, made. split; [exact Hload|].
    split; [exact Hsub|]. exact Hreq.
  - eexists _, _. split; [reflexivity|]. split; [exact Hout|reflexivity].
  - destruct Hout.
Qed.

(** X27: the two scripts fit together: after a partition that returns,
    [get_all_tier_files] finds the ten tier files (no warning is printed),
    and reading the file of tier [t] gives the ships of the summaries of
    bucket [t]. *)
Theorem tier_files_found_after_partition
    (remote : list request -> request -> reply) (py_repr : pyval -> string)
    (int_other : string -> option Z)
    (cache : dict) (dl : bool) (w w' : world) (tiers : gmap Z (list pyval))
    (ns : list (nat * GetMain.notice)) :
  Main.build_tiers_and_images remote py_repr int_other cache dl w = (Done tiers, w') ->
  let s := {| GetMain.base := w'; GetMain.notices := ns |} in
  GetMain.get_all_tier_files s = (GetMain.GDone tier_paths, s)
  /\ forall t, 1 <= t <= 10 ->
       exists l, tiers !! t = Some l
                 /\ GetMain.load_ships_from_tier_file (tier_path t) s
                    = GetMain.glift (GetMain.ships_of_list l []) s.
Proof.
  intros H s.
  assert (Hfile : forall t, 1 <= t <= 10 ->
            exists l, tiers !! t = Some l
                      /\ files w' !! tier_path t = Some (FJson (PList l))).
  { intros t Ht.
    destruct (build_tier_files remote py_repr int_other cache dl w w' tiers H t Ht)
      as (l & Hl & Hf & _). eauto. }
  split.
  - unfold GetMain.get_all_tier_files.
    destruct (tier_files_loop_spec [1; 2; 3; 4; 5; 6; 7; 8; 9; 10] [] s)
      as (ns' & -> & Hlen).
    assert (Hp : forall t, 1 <= t <= 10 -> present w' (tier_path t) = true).
    { intros t Ht. destruct (Hfile t Ht) as (l & _ & Hf).
      unfold present. apply bool_decide_eq_true. rewrite Hf. eauto. }
    cbn [map List.filter GetMain.base s] in *.
    rewrite !Hp in * by lia. cbn [negb length] in Hlen.
    destruct ns'; [|discriminate]. reflexivity.
  - intros t Ht. destruct (Hfile t Ht) as (l & Hl & Hf). exists l.
    split; [exact Hl|].
    unfold GetMain.load_ships_from_tier_file, GetMain.gbind, GetMain.open_json.
    cbn [GetMain.base s]. rewrite Hf. reflexivity.
Qed.

Lemma tier_files_found_after_partition_witness :
  let s := {| GetMain.base := fletcher_world; GetMain.notices := [] |} in
  let tiers := <[5 := [PDict fletcher_summary]]> Main.empty_tiers in
  GetMain.get_all_tier_files s = (GetMain.GDone tier_paths, s)
  /\ forall t, 1 <= t <= 10 ->
       exists l, tiers !! t = Some l
                 /\ GetMain.load_ships_from_tier_file (tier_path t) s
                    = GetMain.glift (GetMain.ships_of_list l []) s.
Proof.
  intros s tiers.
  apply (tier_files_found_after_partition silent_remote no_repr no_int
           [("100"%string, PDict fletcher)] true empty_world fletcher_world tiers []).
  reflexivity.
Defined.



(** A ship named ["/tmp/x"]: nothing appears under [ships_data]. *)
Example absolute_name_ex :
  detail_path no_repr (PStr "/tmp/x") = "/tmp/x.json"%string
  /\ files (snd (Get.fetch_and_save_ship detail_remote no_repr (PStr "/tmp/x")
                   (PInt 100) empty_world))
       !! "ships_data/tmp/x.json"%string = None.
Proof. split; reflexivity. Qed.

(** What the sample file gives: one ship, with the id of its last entry. *)
Example load_ships_sample :
  fst (GetMain.load_ships_from_tier_file (tier_path 5) sample_state)
  = GetMain.GDone [(PStr "Fletcher", PInt 7)].
Proof. reflexivity. Qed.

(** The two scripts on the Fletcher cache: [main] of get.py, run after the
    partition, asks for the detail of ship "100" and saves it. *)
Example get_main_after_partition :
  let run := GetMain.main detail_remote no_repr
               {| GetMain.base := fletcher_world; GetMain.notices := [] |} in
  fst run = GetMain.GDone tt
  /\ requests_of (trace (GetMain.base (snd run))) = [ReqShipDetail (PStr "100")]
  /\ files (GetMain.base (snd run)) !! "ships_data/Fletcher.json"%string
     = Some (FJson (PDict ok_detail)).
Proof. repeat split. Qed.
